(** * The service layer of the dashboard template

    A shallow embedding of [src/services]: the query-string builder
    ([utils.ts]), the configured HTTP client and the generic fetch dispatcher
    ([api-client.ts]) and the endpoint wrappers built on them ([models.ts],
    [connectors.ts], [dashboard.ts], [syncs.ts]), followed by the properties
    the specification states about them and by further properties read off
    the code.

    Conventions of the embedding.
    - A JavaScript string is represented by the bytes of its UTF-8 encoding
      ([string] of the standard library); this is the form in which
      [URLSearchParams] serialises names and values, and the parser's last
      step, decoding UTF-8, is the identity on it.
    - The platform's [number] type is kept abstract behind the class
      [JsNumber]; the integers are its instance used for ids, page numbers
      and status codes.
    - An object literal handed to [Object.entries] is the list of its entries
      in iteration order. *)

From Stdlib Require Import ZArith List Ascii String Bool Lia DecimalString.
From stdpp Require Import base strings gmap.
Import ListNotations.

Local Open Scope Z_scope.
#[local] Set Warnings "-register-all".

(** ** Numbers *)

Class JsNumber (number : Type) := {
  (** the value of an integer literal of the source *)
  Number_of_Z : Z -> number;
  (** [String(n)] *)
  Number_toString : number -> string;
  (** [Boolean(n)]: false for zeros and NaN *)
  Number_toBoolean : number -> bool;
  (** safe integers print as their decimal numeral *)
  Number_toString_int :
    forall z, Z.abs z < 2 ^ 53 ->
      Number_toString (Number_of_Z z) = NilZero.string_of_int (Z.to_int z)
}.

#[export] Instance Z_JsNumber : JsNumber Z := {
  Number_of_Z z := z;
  Number_toString z := NilZero.string_of_int (Z.to_int z);
  Number_toBoolean z := negb (z =? 0);
  Number_toString_int z _ := eq_refl
}.

(** ** Strings *)

(** Truthiness of a string: only the empty string is falsy. *)
Definition String_toBoolean (s : string) : bool :=
  match s with
  | EmptyString => false
  | String _ _ => true
  end.

(** [haystack.startsWith(needle)] *)
Fixpoint String_startsWith (needle haystack : string) : bool :=
  match needle, haystack with
  | EmptyString, _ => true
  | String _ _, EmptyString => false
  | String a needle', String b haystack' =>
      (a =? b)%char && String_startsWith needle' haystack'
  end.

(** [haystack.includes(needle)] *)
Fixpoint String_includes (needle haystack : string) : bool :=
  String_startsWith needle haystack ||
  match haystack with
  | EmptyString => false
  | String _ haystack' => String_includes needle haystack'
  end.

(** The number of positions of [haystack] at which [needle] starts. *)
Fixpoint String_occurrences (needle haystack : string) : nat :=
  ((if String_startsWith needle haystack then 1 else 0) +
   match haystack with
   | EmptyString => 0
   | String _ haystack' => String_occurrences needle haystack'
   end)%nat.

(** [s.split(sep)] for a one-character separator: never the empty list. *)
Fixpoint String_split (sep : ascii) (s : string) : list string :=
  match s with
  | EmptyString => [EmptyString]
  | String c rest =>
      if (c =? sep)%char then EmptyString :: String_split sep rest
      else match String_split sep rest with
           | seg :: segs => String c seg :: segs
           | [] => [String c EmptyString]
           end
  end.

(** ** The application/x-www-form-urlencoded format

    [URLSearchParams] is the platform's; its serialiser and parser are
    modelled from the URL standard. *)

Module UrlEncoded.

(** The bytes left as they are: ASCII alphanumerics, [*], [-], [.] and [_]. *)
Definition is_safe (c : ascii) : bool :=
  let n := N_of_ascii c in
  (((48 <=? n) && (n <=? 57)) || ((65 <=? n) && (n <=? 90)) ||
   ((97 <=? n) && (n <=? 122)) ||
   (n =? 42) || (n =? 45) || (n =? 46) || (n =? 95))%N.

(** Upper-case hexadecimal digit of a value below 16. *)
Definition hex_digit (n : N) : ascii :=
  ascii_of_N (if (n <? 10)%N then 48 + n else 55 + n)%N.

(** Value of a hexadecimal digit, either case. *)
Definition hex_value (c : ascii) : option N :=
  let n := N_of_ascii c in
  if ((48 <=? n) && (n <=? 57))%N then Some (n - 48)%N
  else if ((65 <=? n) && (n <=? 70))%N then Some (n - 55)%N
  else if ((97 <=? n) && (n <=? 102))%N then Some (n - 87)%N
  else None.

Definition percent_encode_byte (c : ascii) : string :=
  let n := N_of_ascii c in
  String "%" (String (hex_digit (n / 16)) (String (hex_digit (n mod 16)) "")).

(** Percent-encoding with the form-urlencoded set and space as [+]. *)
Fixpoint encode (s : string) : string :=
  match s with
  | EmptyString => EmptyString
  | String c rest =>
      if is_safe c then String c (encode rest)
      else if (c =? " ")%char then String "+" (encode rest)
      else percent_encode_byte c +:+ encode rest
  end.

Definition serialize_pair (p : string * string) : string :=
  encode (fst p) +:+ "=" +:+ encode (snd p).

(** The serialiser: [name=value] tuples joined by [&]. *)
Definition serialize (pairs : list (string * string)) : string :=
  String.concat "&" (map serialize_pair pairs).

Fixpoint plus_to_space (s : string) : string :=
  match s with
  | EmptyString => EmptyString
  | String c rest =>
      String (if (c =? "+")%char then " "%char else c) (plus_to_space rest)
  end.

(** A [%] followed by two hexadecimal digits is the byte they denote; any
    other byte stands for itself. *)
Fixpoint percent_decode (s : string) : string :=
  match s with
  | EmptyString => EmptyString
  | String c rest =>
      if (c =? "%")%char then
        match rest with
        | String h (String l rest') =>
            match hex_value h, hex_value l with
            | Some a, Some b =>
                String (ascii_of_N (16 * a + b)) (percent_decode rest')
            | _, _ => String c (percent_decode rest)
            end
        | _ => String c (percent_decode rest)
        end
      else String c (percent_decode rest)
  end.

Definition decode (s : string) : string := percent_decode (plus_to_space s).

(** Name and value of one [&]-separated sequence: split at the first [=];
    without one the value is empty. *)
Fixpoint name_value (s : string) : string * string :=
  match s with
  | EmptyString => (EmptyString, EmptyString)
  | String c rest =>
      if (c =? "=")%char then (EmptyString, rest)
      else let (name, value) := name_value rest in (String c name, value)
  end.

Definition parse_sequence (seq : string) : list (string * string) :=
  match seq with
  | EmptyString => []
  | _ => let (name, value) := name_value seq in [(decode name, decode value)]
  end.

(** The parser: empty sequences are skipped. *)
Definition parse (input : string) : list (string * string) :=
  flat_map parse_sequence (String_split "&" input).

End UrlEncoded.

Module URLSearchParams.

(** The list of name-value tuples, in insertion order. *)
Definition t := list (string * string).

(** [new URLSearchParams()] *)
Definition empty : t := [].

(** [new URLSearchParams(init)] for a string: one leading [?] is dropped. *)
Definition of_string (init : string) : t :=
  match init with
  | String "?" rest => UrlEncoded.parse rest
  | _ => UrlEncoded.parse init
  end.

Definition append (sp : t) (name value : string) : t := sp ++ [(name, value)].

Definition toString (sp : t) : string := UrlEncoded.serialize sp.

End URLSearchParams.

(** ** utils.ts *)

Section Utils.
Context {number : Type} `{JsNumber number}.

(** [Array<string | number>] *)
Inductive ArrayItem :=
| ItemString (s : string)
| ItemNumber (n : number).

(** [string | number | boolean | undefined | null | Array<string | number>] *)
Inductive ParamValue :=
| PUndefined
| PNull
| PString (s : string)
| PNumber (n : number)
| PBoolean (b : bool)
| PArray (items : list ArrayItem).

Definition String_of_item (item : ArrayItem) : string :=
  match item with
  | ItemString s => s
  | ItemNumber n => Number_toString n
  end.

(** [String(value)] *)
Definition String_of_param (value : ParamValue) : string :=
  match value with
  | PUndefined => "undefined"
  | PNull => "null"
  | PString s => s
  | PNumber n => Number_toString n
  | PBoolean true => "true"
  | PBoolean false => "false"
  | PArray items => String.concat "," (map String_of_item items)
  end.

(** One iteration of the loop over [Object.entries(params)]. *)
Definition appendEntry (searchParams : URLSearchParams.t)
    (entry : string * ParamValue) : URLSearchParams.t :=
  let (key, value) := entry in
  match value with
  | PUndefined | PNull => searchParams
  | PArray items =>
      fold_left
        (fun sp item =>
           URLSearchParams.append sp (key +:+ "[]") (String_of_item item))
        items searchParams
  | _ => URLSearchParams.append searchParams key (String_of_param value)
  end.

(** The tuples held by [searchParams] when the loop ends. *)
Definition searchParamsOf (params : list (string * ParamValue))
  : URLSearchParams.t :=
  fold_left appendEntry params URLSearchParams.empty.

(** The local [queryString]. *)
Definition queryStringOf (params : list (string * ParamValue)) : string :=
  URLSearchParams.toString (searchParamsOf params).

Definition buildUrlWithParams (url : string)
    (params : list (string * ParamValue)) : string :=
  let queryString := queryStringOf params in
  if String_toBoolean queryString then url +:+ "?" +:+ queryString else url.

End Utils.

Arguments ArrayItem : clear implicits.
Arguments ParamValue : clear implicits.

(** ** Values of the wire format

    Response bodies and payloads are untyped at run time: the declared
    envelope types are erased, so a body is any JSON value ([undefined]
    stands for an absent property). *)

Inductive JsValue (number : Type) :=
| JUndefined
| JNull
| JBoolean (b : bool)
| JNumber (n : number)
| JString (s : string)
| JArray (items : list (JsValue number))
| JObject (fields : list (string * JsValue number)).

Arguments JUndefined {number}.
Arguments JNull {number}.
Arguments JBoolean {number} b.
Arguments JNumber {number} n.
Arguments JString {number} s.
Arguments JArray {number} items.
Arguments JObject {number} fields.

(** The first binding of [key] in the entries of an object. *)
Fixpoint lookupField {A : Type} (key : string) (fields : list (string * A))
  : option A :=
  match fields with
  | [] => None
  | (k, v) :: rest => if (k =? key)%string then Some v else lookupField key rest
  end.

(** Outcome of a promise or of an expression that may throw. *)
Inductive Settled (E A : Type) :=
| Fulfilled (value : A)
| Rejected (reason : E).

Arguments Fulfilled {E A} value.
Arguments Rejected {E A} reason.

(** [HTTP] response as the client hands it on. *)
Record AxiosResponse (number : Type) := {
  res_status : Z;
  res_statusText : string;
  res_headers : gmap string string;
  res_data : JsValue number
}.

Arguments res_status {number} _.
Arguments res_statusText {number} _.
Arguments res_headers {number} _.
Arguments res_data {number} _.

(** A thrown value: an [AxiosError] carries the response when there was one,
    any other error ([TypeError], ...) has none. *)
Record JsError (number : Type) := {
  err_name : string;
  err_message : string;
  err_response : option (AxiosResponse number)
}.

Arguments err_name {number} _.
Arguments err_message {number} _.
Arguments err_response {number} _.

(** [AxiosRequestConfig]: per-call options, instance defaults and the merged
    configuration of a request share this shape. *)
Record AxiosRequestConfig (number : Type) := {
  cfg_url : option string;
  cfg_method : option string;
  cfg_baseURL : option string;
  cfg_headers : gmap string string;
  cfg_data : JsValue number;
  cfg_timeout : option Z
}.

Arguments cfg_url {number} _.
Arguments cfg_method {number} _.
Arguments cfg_baseURL {number} _.
Arguments cfg_headers {number} _.
Arguments cfg_data {number} _.
Arguments cfg_timeout {number} _.

(** Process-wide configuration ([@/env]). *)
Record Env := {
  VITE_API_HOST : string;
  VITE_WORKSPACE_ID : string;
  VITE_API_TOKEN : string
}.

Section JsValues.
Context {number : Type} `{JsNumber number}.

(** [Boolean(v)] *)
Definition toBoolean (v : JsValue number) : bool :=
  match v with
  | JUndefined | JNull => false
  | JBoolean b => b
  | JNumber n => Number_toBoolean n
  | JString s => String_toBoolean s
  | JArray _ | JObject _ => true
  end.

(** [String(v)], as a template literal coerces its holes. *)
Fixpoint toString (v : JsValue number) : string :=
  match v with
  | JUndefined => "undefined"
  | JNull => "null"
  | JBoolean true => "true"
  | JBoolean false => "false"
  | JNumber n => Number_toString n
  | JString s => s
  | JArray items =>
      String.concat ","
        (map (fun item =>
                match item with
                | JUndefined | JNull => EmptyString
                | _ => toString item
                end) items)
  | JObject _ => "[object Object]"
  end.

Definition TypeError (message : string) : JsError number :=
  {| err_name := "TypeError"; err_message := message; err_response := None |}.

(** [v.key] (also one binding of a destructuring pattern): reading a
    property of [undefined] or [null] throws; a property that is not there
    reads as [undefined].  Inherited properties of primitives and arrays
    are not among the keys the services read. *)
Definition getProperty (v : JsValue number) (key : string)
  : Settled (JsError number) (JsValue number) :=
  match v with
  | JUndefined | JNull =>
      Rejected (TypeError ("Cannot read properties of " +:+ toString v))
  | JObject fields =>
      Fulfilled (match lookupField key fields with
                 | Some x => x
                 | None => JUndefined
                 end)
  | _ => Fulfilled JUndefined
  end.

End JsValues.

(** ** api-client.ts *)

Definition API_VERSION : string := "/api/v1".

(** What a call can observe and change: the configuration, and the requests
    handed to the transport so far (oldest first), each as the transport
    received it. *)
Record World (number : Type) := {
  env : Env;
  requests : list (AxiosRequestConfig number)
}.

Arguments env {number} _.
Arguments requests {number} _.

(** An asynchronous computation: run from a world, it settles and leaves a
    world. *)
Definition Promise (number A : Type) : Type :=
  World number -> Settled (JsError number) A * World number.

Definition Promise_resolve {number A} (a : A) : Promise number A :=
  fun w => (Fulfilled a, w).

Definition Promise_reject {number A} (e : JsError number) : Promise number A :=
  fun w => (Rejected e, w).

(** [await p] followed by [k], or [p.then(k)]: a rejection skips [k]. *)
Definition Promise_then {number A B} (p : Promise number A)
    (k : A -> Promise number B) : Promise number B :=
  fun w =>
    match p w with
    | (Fulfilled a, w') => k a w'
    | (Rejected e, w') => (Rejected e, w')
    end.

(** An expression that may throw, inside an [async] function. *)
Definition Promise_of {number A} (s : Settled (JsError number) A)
  : Promise number A :=
  fun w => (s, w).

Notation "'await' x <- p ;; k" := (Promise_then p (fun x => k))
  (at level 10, x name, p at level 99, k at level 200).

(** The configuration changes under the running program. *)
Definition setEnv {number} (e : Env) : Promise number unit :=
  fun w => (Fulfilled tt, {| env := e; requests := requests w |}).

(** The client instance: its defaults and the handlers registered on its
    interceptors.  A request handler runs with the configuration current when
    the request is made. *)
Record AxiosInstance (number : Type) := {
  defaults : AxiosRequestConfig number;
  interceptors_request :
    Env -> AxiosRequestConfig number -> AxiosRequestConfig number;
  interceptors_response_fulfilled : AxiosResponse number -> AxiosResponse number;
  interceptors_response_rejected :
    JsError number -> Settled (JsError number) (AxiosResponse number)
}.

Arguments defaults {number} _.
Arguments interceptors_request {number} _ _ _.
Arguments interceptors_response_fulfilled {number} _ _.
Arguments interceptors_response_rejected {number} _ _.

(** [{ ...options }] when [options] is absent *)
Definition emptyConfig {number} : AxiosRequestConfig number :=
  {| cfg_url := None; cfg_method := None; cfg_baseURL := None;
     cfg_headers := ∅; cfg_data := JUndefined; cfg_timeout := None |}.

Definition orElse {A} (a b : option A) : option A :=
  match a with
  | Some _ => a
  | None => b
  end.

(** [mergeConfig(config1, config2)]: url, method and data are those of
    [config2]; for the rest [config2] takes precedence over [config1]. *)
Definition mergeConfig {number} (config1 config2 : AxiosRequestConfig number)
  : AxiosRequestConfig number :=
  {| cfg_url := cfg_url config2;
     cfg_method := cfg_method config2;
     cfg_baseURL := orElse (cfg_baseURL config2) (cfg_baseURL config1);
     cfg_headers := cfg_headers config2 ∪ cfg_headers config1;
     cfg_data := cfg_data config2;
     cfg_timeout := orElse (cfg_timeout config2) (cfg_timeout config1) |}.

(** The library's defaults that matter here. *)
Definition axios_defaults {number} : AxiosRequestConfig number :=
  {| cfg_url := None; cfg_method := None; cfg_baseURL := None;
     cfg_headers := {[ "Accept" := "application/json, text/plain, */*" ]};
     cfg_data := JUndefined; cfg_timeout := Some 0 |}.

Definition withHeaders {number} (config : AxiosRequestConfig number)
    (h : gmap string string) : AxiosRequestConfig number :=
  {| cfg_url := cfg_url config; cfg_method := cfg_method config;
     cfg_baseURL := cfg_baseURL config; cfg_headers := h;
     cfg_data := cfg_data config; cfg_timeout := cfg_timeout config |}.

(** [FetchProps<PayloadType>]; the method is whatever string the caller
    passes, the payload [undefined] when absent. *)
Record FetchProps (number : Type) := {
  url : string;
  method : string;
  data : JsValue number;
  options : option (AxiosRequestConfig number)
}.

Arguments url {number} _.
Arguments method {number} _.
Arguments data {number} _.
Arguments options {number} _.

(** [ReportTimePeriod], [ReportMetric] and [ReportOptions] of dashboard.ts *)
Inductive ReportTimePeriod := thirty_days | one_week | one_day.

Inductive ReportMetric := sync_run_triggered | total_sync_run_rows | all.

Record ReportOptions (number : Type) := {
  metric : option ReportMetric;
  timePeriod : option ReportTimePeriod;
  connectorIds : option (list number)
}.

Arguments metric {number} _.
Arguments timePeriod {number} _.
Arguments connectorIds {number} _.

(** [{}] as report options *)
Definition noReportOptions {number} : ReportOptions number :=
  {| metric := None; timePeriod := None; connectorIds := None |}.

(** The model kinds of models.ts *)
Definition AllDataModels : string :=
  "raw_sql,dbt,soql,table_selector,dynamic_sql,unstructured,vector_search,semistructured".

Definition AllDataModelsWithoutDynamicSQL : string :=
  "raw_sql,dbt,soql,table_selector,unstructured,semistructured".

(** [GetAllModelsProps] of models.ts *)
Record GetAllModelsProps (number : Type) := {
  type : option string;
  page : option number;
  perPage : option number
}.

Arguments type {number} _.
Arguments page {number} _.
Arguments perPage {number} _.

(** [{}] as the properties of [getAllModels] *)
Definition noModelsProps {number} : GetAllModelsProps number :=
  {| type := None; page := None; perPage := None |}.

(** ['source' | 'destination'] of connectors.ts *)
Inductive ConnectorType := source | destination.

Section ApiClient.
Context {number : Type} `{JsNumber number}.

(** The transport under the client (adapter and status validation): from
    the requests made so far and the request at hand to a response, or to
    an error with or without one. *)
Variable transport :
  list (AxiosRequestConfig number) -> AxiosRequestConfig number ->
  Settled (JsError number) (AxiosResponse number).

(** The configuration in force when the module was loaded. *)
Variable loadEnv : Env.

Definition createApiClient (e : Env) : AxiosInstance number :=
  {| defaults :=
       mergeConfig axios_defaults
         {| cfg_url := None; cfg_method := None;
            cfg_baseURL := Some (VITE_API_HOST e +:+ API_VERSION);
            cfg_headers := ∅; cfg_data := JUndefined; cfg_timeout := None |};
     interceptors_request := fun current config =>
       withHeaders config
         (<["Content-Type" := "application/json"]>
            (<["Accept" := "*/*"]>
               (<["Authorization" := "Bearer " +:+ VITE_API_TOKEN current]>
                  (<["Workspace-Id" := VITE_WORKSPACE_ID current]>
                     (cfg_headers config)))));
     interceptors_response_fulfilled := fun response => response;
     interceptors_response_rejected := fun error =>
       match err_response error with
       | Some response => Fulfilled response
       | None => Rejected error
       end |}.

Definition apiClient : AxiosInstance number := createApiClient loadEnv.

(** [instance.request(config)]: merge with the defaults, run the request
    handler, hand the request to the transport, run the response
    handlers. *)
Definition Axios_request (instance : AxiosInstance number)
    (config : AxiosRequestConfig number) : Promise number (AxiosResponse number) :=
  fun w =>
    let merged := mergeConfig (defaults instance) config in
    let sent := interceptors_request instance (env w) merged in
    let outcome := transport (requests w) sent in
    (match outcome with
     | Fulfilled response =>
         Fulfilled (interceptors_response_fulfilled instance response)
     | Rejected error => interceptors_response_rejected instance error
     end,
     {| env := env w; requests := requests w ++ [sent] |}).

(** [instance.get(url, config)], [instance.delete(url, config)]: the body
    is the configuration's own. *)
Definition Axios_withoutData (verb : string) (instance : AxiosInstance number)
    (url : string) (config : AxiosRequestConfig number) :=
  Axios_request instance
    (mergeConfig config
       {| cfg_url := Some url; cfg_method := Some verb; cfg_baseURL := None;
          cfg_headers := ∅; cfg_data := cfg_data config;
          cfg_timeout := None |}).

(** [instance.post(url, data, config)], and [put], [patch]. *)
Definition Axios_withData (verb : string) (instance : AxiosInstance number)
    (url : string) (data : JsValue number)
    (config : AxiosRequestConfig number) :=
  Axios_request instance
    (mergeConfig config
       {| cfg_url := Some url; cfg_method := Some verb; cfg_baseURL := None;
          cfg_headers := ∅; cfg_data := data; cfg_timeout := None |}).

Definition Axios_get := Axios_withoutData "get".
Definition Axios_delete := Axios_withoutData "delete".
Definition Axios_post := Axios_withData "post".
Definition Axios_put := Axios_withData "put".
Definition Axios_patch := Axios_withData "patch".

Definition apiFetch (props : FetchProps number) : Promise number (JsValue number) :=
  let config :=
    match options props with
    | Some o => o
    | None => emptyConfig
    end in
  if (method props =? "post")%string then
    await res <- Axios_post apiClient (url props) (data props) config ;;
    Promise_resolve (res_data res)
  else if (method props =? "put")%string then
    await res <- Axios_put apiClient (url props) (data props) config ;;
    Promise_resolve (res_data res)
  else if (method props =? "delete")%string then
    await res <- Axios_delete apiClient (url props) config ;;
    Promise_resolve (res_data res)
  else if (method props =? "patch")%string then
    await res <- Axios_patch apiClient (url props) (data props) config ;;
    Promise_resolve (res_data res)
  else
    await res <- Axios_get apiClient (url props) config ;;
    Promise_resolve (res_data res).

(** ** models.ts *)

(** The arguments are read out of a response body, so they are whatever
    the body holds. *)
Definition querySource (connectorId query : JsValue number)
  : Promise number (JsValue number) :=
  apiFetch
    {| method := "post";
       url := "/connectors/" +:+ toString connectorId +:+ "/query_source";
       data := JObject [("query", query)];
       options := None |}.

Definition getModelById (id : string) : Promise number (JsValue number) :=
  apiFetch
    {| method := "get"; url := "/models/" +:+ id;
       data := JUndefined; options := None |}.

(** The envelope [executeModel] makes up when the model has no data. *)
Definition modelNotFound : JsValue number :=
  JObject
    [("status", JNumber (Number_of_Z 404));
     ("errors",
      JArray
        [JObject
           [("status", JNumber (Number_of_Z 404));
            ("title", JString "Not Found");
            ("detail", JString "Model not found")]])].

Definition executeModel (modelId : string) : Promise number (JsValue number) :=
  await modelResponse <- getModelById modelId ;;
  await modelData <- Promise_of (getProperty modelResponse "data") ;;
  if negb (toBoolean modelData) then Promise_resolve modelNotFound
  else
    await attributes <- Promise_of (getProperty modelData "attributes") ;;
    await query <- Promise_of (getProperty attributes "query") ;;
    await connector <- Promise_of (getProperty attributes "connector") ;;
    await connectorId <- Promise_of (getProperty connector "id") ;;
    querySource connectorId query.

(** ** dashboard.ts *)

Definition ReportMetric_name (m : ReportMetric) : string :=
  match m with
  | sync_run_triggered => "sync_run_triggered"
  | total_sync_run_rows => "total_sync_run_rows"
  | all => "all"
  end.

Definition ReportTimePeriod_name (p : ReportTimePeriod) : string :=
  match p with
  | thirty_days => "thirty_days"
  | one_week => "one_week"
  | one_day => "one_day"
  end.

(** The argument is absent ([None]) when the caller passes none; each
    field of the options has its default. *)
Definition getReport (reportOptions : option (ReportOptions number))
  : Promise number (JsValue number) :=
  let given := default noReportOptions reportOptions in
  let metric := default all (metric given) in
  let timePeriod := default one_week (timePeriod given) in
  let connectorIds := default [] (connectorIds given) in
  apiFetch
    {| method := "get";
       url :=
         buildUrlWithParams "/reports"
           [("type", PString "workspace_activity");
            ("metric", PString (ReportMetric_name metric));
            ("time_period", PString (ReportTimePeriod_name timePeriod));
            ("connector_ids",
             if (0 <? length connectorIds)%nat
             then PArray (map ItemNumber connectorIds)
             else PUndefined)];
       data := JUndefined;
       options := None |}.

(** ** syncs.ts *)

Definition fetchSyncs (page perPage : option number)
  : Promise number (JsValue number) :=
  apiFetch
    {| method := "get";
       url :=
         buildUrlWithParams "/syncs"
           [("page", PNumber (default (Number_of_Z 1) page));
            ("per_page", PNumber (default (Number_of_Z 10) perPage))];
       data := JUndefined;
       options := None |}.

(** ** models.ts, the listing *)

Definition getAllModels (props : option (GetAllModelsProps number))
  : Promise number (JsValue number) :=
  let given := default noModelsProps props in
  let type := default AllDataModels (type given) in
  let page := default (Number_of_Z 1) (page given) in
  let perPage := default (Number_of_Z 10) (perPage given) in
  apiFetch
    {| method := "get";
       url :=
         buildUrlWithParams "/models"
           [("page", PNumber page);
            ("per_page", PNumber perPage);
            ("query_type", PString type)];
       data := JUndefined;
       options := None |}.

(** ** connectors.ts *)

Definition ConnectorType_name (connectorType : ConnectorType) : string :=
  match connectorType with
  | source => "source"
  | destination => "destination"
  end.

Definition getUserConnectors (connectorType : ConnectorType)
    (page perPage : option number) : Promise number (JsValue number) :=
  apiFetch
    {| method := "get";
       url :=
         buildUrlWithParams "/connectors"
           [("type", PString (ConnectorType_name connectorType));
            ("page", PNumber (default (Number_of_Z 1) page));
            ("per_page", PNumber (default (Number_of_Z 10) perPage))];
       data := JUndefined;
       options := None |}.

Definition getAllConnectors : Promise number (JsValue number) :=
  apiFetch
    {| method := "get"; url := "/connectors";
       data := JUndefined; options := None |}.

Definition getConnectorInfo (id : string) : Promise number (JsValue number) :=
  apiFetch
    {| method := "get"; url := "/connectors/" +:+ id;
       data := JUndefined; options := None |}.

Definition deleteConnector (id : string) : Promise number (JsValue number) :=
  apiFetch
    {| method := "delete"; url := "/connectors/" +:+ id;
       data := JUndefined; options := None |}.

(** ** syncs.ts, the other calls *)

Definition getCatalog (connectorId : string) (refresh : option bool)
  : Promise number (JsValue number) :=
  let refresh := default false refresh in
  apiFetch
    {| method := "get";
       url :=
         "/connectors/" +:+ connectorId +:+ "/discover?refresh=" +:+
         (if refresh then "true" else "false");
       data := JUndefined;
       options := None |}.

Definition getSyncById (id : string) : Promise number (JsValue number) :=
  apiFetch
    {| method := "get"; url := "/syncs/" +:+ id;
       data := JUndefined; options := None |}.

Definition getSyncRunsBySyncId (syncId : string)
    (page perPage : option number) : Promise number (JsValue number) :=
  apiFetch
    {| method := "get";
       url :=
         buildUrlWithParams ("/syncs/" +:+ syncId +:+ "/sync_runs")
           [("page", PNumber (default (Number_of_Z 1) page));
            ("per_page", PNumber (default (Number_of_Z 10) perPage))];
       data := JUndefined;
       options := None |}.

Definition getSyncRunById (syncId syncRunId : string)
  : Promise number (JsValue number) :=
  apiFetch
    {| method := "get";
       url := "/syncs/" +:+ syncId +:+ "/sync_runs/" +:+ syncRunId;
       data := JUndefined; options := None |}.

End ApiClient.

(** * Vocabulary of the statements *)

(** Whether the byte [c] occurs in [s]. *)
Fixpoint has_char (c : ascii) (s : string) : bool :=
  match s with
  | EmptyString => false
  | String a rest => (a =? c)%char || has_char c rest
  end.

Section UtilsVocabulary.
Context {number : Type} `{JsNumber number}.

(** [value === undefined || value === null] *)
Definition isAbsent (value : ParamValue number) : bool :=
  match value with
  | PUndefined | PNull => true
  | _ => false
  end.

(** [Array.isArray(value)] *)
Definition isArray (value : ParamValue number) : bool :=
  match value with
  | PArray _ => true
  | _ => false
  end.

(** The tuples one entry of the mapping adds to [searchParams]. *)
Definition entryTuples (entry : string * ParamValue number)
  : list (string * string) :=
  let (key, value) := entry in
  match value with
  | PUndefined | PNull => []
  | PArray items =>
      map (fun item => (key +:+ "[]", String_of_item item)) items
  | _ => [(key, String_of_param value)]
  end.

(** The [name=value] segments of the query string, in order; the query
    string is these joined by [&] ([queryStringOf_segments]). *)
Definition segmentsOf (params : list (string * ParamValue number))
  : list string :=
  map UrlEncoded.serialize_pair (searchParamsOf params).

(** The entries whose value is not absent, each with the text of its
    value: the non-absent part of a mapping of scalars. *)
Definition presentEntries (params : list (string * ParamValue number))
  : list (string * string) :=
  flat_map
    (fun entry =>
       if isAbsent (snd entry) then []
       else [(fst entry, String_of_param (snd entry))])
    params.

End UtilsVocabulary.

Section ApiVocabulary.
Context {number : Type} `{JsNumber number}.

(** The requests a computation hands to the transport when it is run from
    the world [w], oldest first. *)
Definition issued {A} (p : Promise number A) (w : World number)
  : list (AxiosRequestConfig number) :=
  skipn (length (requests w)) (requests (snd (p w))).

(** The verb [apiFetch] picks for a method value. *)
Definition verbOf (method : string) : string :=
  if (method =? "post")%string then "post"
  else if (method =? "put")%string then "put"
  else if (method =? "delete")%string then "delete"
  else if (method =? "patch")%string then "patch"
  else "get".

(** Whether the verb takes the payload as its body. *)
Definition sendsPayload (verb : string) : bool :=
  (verb =? "post")%string || (verb =? "put")%string ||
  (verb =? "patch")%string.

(** The request that [apiFetch props] hands to the transport under the
    configuration [current], for the client built under [loadEnv]
    ([apiFetch_run]). *)
Definition requestOf (loadEnv : Env) (props : FetchProps number)
    (current : Env) : AxiosRequestConfig number :=
  let config := default emptyConfig (options props) in
  let verb := verbOf (method props) in
  interceptors_request (apiClient loadEnv) current
    (mergeConfig (defaults (apiClient loadEnv))
       (mergeConfig config
          {| cfg_url := Some (url props); cfg_method := Some verb;
             cfg_baseURL := None; cfg_headers := ∅;
             cfg_data :=
               if sendsPayload verb then data props else cfg_data config;
             cfg_timeout := None |})).

(** What the caller of [apiFetch] gets for an outcome of the transport:
    the body of the response when there is one, the error otherwise. *)
Definition bodyOf
    (outcome : Settled (JsError number) (AxiosResponse number))
  : Settled (JsError number) (JsValue number) :=
  match outcome with
  | Fulfilled response => Fulfilled (res_data response)
  | Rejected error =>
      match err_response error with
      | Some response => Fulfilled (res_data response)
      | None => Rejected error
      end
  end.

(** The four headers, with the values of the configuration [current]. *)
Definition carriesHeadersOf (current : Env)
    (request : AxiosRequestConfig number) : Prop :=
  cfg_headers request !! "Workspace-Id" = Some (VITE_WORKSPACE_ID current)
  /\ cfg_headers request !! "Authorization"
     = Some ("Bearer " +:+ VITE_API_TOKEN current)
  /\ cfg_headers request !! "Accept" = Some "*/*"
  /\ cfg_headers request !! "Content-Type" = Some "application/json".

(** A property that is not there, or is [undefined] or [null]. *)
Definition absentField (key : string)
    (fields : list (string * JsValue number)) : Prop :=
  lookupField key fields = None
  \/ lookupField key fields = Some JUndefined
  \/ lookupField key fields = Some JNull.

(** The body has the shape of [ApiResponse<Model>] with its data: a model
    whose attributes hold the query text and the connector with its id. *)
Definition holdsModel (fields : list (string * JsValue number))
    (query connectorId : string) : Prop :=
  exists model attributes connector,
    lookupField "data" fields = Some (JObject model)
    /\ lookupField "attributes" model = Some (JObject attributes)
    /\ lookupField "query" attributes = Some (JString query)
    /\ lookupField "connector" attributes = Some (JObject connector)
    /\ lookupField "id" connector = Some (JString connectorId).

(** [q] run once [p] has settled, whatever its outcome: two calls made
    one after the other. *)
Definition afterwards {A B} (p : Promise number A) (q : Promise number B)
  : Promise number B :=
  fun w => q (snd (p w)).

End ApiVocabulary.

(** ** Concrete inputs of the examples *)

Definition sampleEnv : Env :=
  {| VITE_API_HOST := "https://api.example.test";
     VITE_WORKSPACE_ID := "7";
     VITE_API_TOKEN := "secret" |}.

Definition sampleWorld : World Z := {| env := sampleEnv; requests := [] |}.

Definition sampleModel : JsValue Z :=
  JObject
    [("id", JString "m1"); ("type", JString "models");
     ("attributes",
      JObject
        [("name", JString "orders"); ("query", JString "select 1");
         ("connector", JObject [("id", JString "12"); ("name", JString "pg")])])].

(** A backend that knows the model [m1] only: any other path is answered
    with status 404 and an error envelope, which the transport reports as an
    error carrying the response. *)
Definition sampleTransport (history : list (AxiosRequestConfig Z))
    (request : AxiosRequestConfig Z)
  : Settled (JsError Z) (AxiosResponse Z) :=
  match cfg_url request with
  | Some "/models/m1" =>
      Fulfilled
        {| res_status := 200; res_statusText := "OK"; res_headers := ∅;
           res_data := JObject [("data", sampleModel)] |}
  | Some "/connectors/12/query_source" =>
      Fulfilled
        {| res_status := 200; res_statusText := "OK"; res_headers := ∅;
           res_data := JObject [("data", JArray [JObject [("?column?", JNumber 1)]])] |}
  | _ =>
      Rejected
        {| err_name := "AxiosError";
           err_message := "Request failed with status code 404";
           err_response :=
             Some
               {| res_status := 404; res_statusText := "Not Found";
                  res_headers := ∅;
                  res_data :=
                    JObject
                      [("errors",
                        JArray
                          [JObject
                             [("status", JNumber 404);
                              ("title", JString "Not Found");
                              ("detail", JString "no such record")]])] |} |}
  end.

(** A transport that reaches no server. *)
Definition offlineTransport (history : list (AxiosRequestConfig Z))
    (request : AxiosRequestConfig Z)
  : Settled (JsError Z) (AxiosResponse Z) :=
  Rejected
    {| err_name := "AxiosError"; err_message := "Network Error";
       err_response := None |}.

(** ** Further vocabulary *)

(** How often the byte [c] occurs in [s]. *)
Fixpoint count_char (c : ascii) (s : string) : nat :=
  match s with
  | EmptyString => 0%nat
  | String a rest => ((if (a =? c)%char then 1 else 0) + count_char c rest)%nat
  end.

(** Whether every byte of [s] passes the test [ok]. *)
Fixpoint all_chars (ok : ascii -> bool) (s : string) : bool :=
  match s with
  | EmptyString => true
  | String a rest => ok a && all_chars ok rest
  end.

(** The bytes a query string is made of: the safe set, [+] and [%] of the
    encoding, and the separators [=] and [&]. *)
Definition is_query_byte (c : ascii) : bool :=
  UrlEncoded.is_safe c || (c =? "+")%char || (c =? "%")%char ||
  (c =? "=")%char || (c =? "&")%char.

(** The names of the headers the request handler sets. *)
Definition fixedHeaders : list string :=
  ["Workspace-Id"; "Authorization"; "Accept"; "Content-Type"].

(** A backend that answers every request with status 200 and the same
    body. *)
Definition answering (body : JsValue Z)
    (history : list (AxiosRequestConfig Z)) (request : AxiosRequestConfig Z)
  : Settled (JsError Z) (AxiosResponse Z) :=
  Fulfilled
    {| res_status := 200; res_statusText := "OK"; res_headers := ∅;
       res_data := body |}.

(** An envelope whose model names its connector and holds no query. *)
Definition envelopeWithoutQuery : JsValue Z :=
  JObject
    [("data",
      JObject
        [("attributes",
          JObject [("connector", JObject [("id", JString "12")])])])].

(** [v === undefined || v === null] for a value of a body *)
Definition isNullish {number} (v : JsValue number) : bool :=
  match v with
  | JUndefined | JNull => true
  | _ => false
  end.

(** The decimal numeral of an integer, as [String] prints a safe integer. *)
Definition decimal (z : Z) : string := NilZero.string_of_int (Z.to_int z).

(** The request with another verb. *)
Definition withMethod {number} (verb : string)
    (request : AxiosRequestConfig number) : AxiosRequestConfig number :=
  {| cfg_url := cfg_url request; cfg_method := Some verb;
     cfg_baseURL := cfg_baseURL request; cfg_headers := cfg_headers request;
     cfg_data := cfg_data request; cfg_timeout := cfg_timeout request |}.

(** * Properties *)

(** Appending to a string literal unfolds under [simpl] in the proofs below. *)
#[local] Arguments String.append !s1 s2 : simpl nomatch.

(** ** Strings *)

Lemma has_char_cons c a s :
  has_char c (String a s) = (a =? c)%char || has_char c s.
Proof. reflexivity. Qed.

Lemma has_char_app c s1 s2 :
  has_char c (s1 +:+ s2) = has_char c s1 || has_char c s2.
Proof.
  induction s1 as [|a s1 IH]; simpl; [reflexivity|].
  rewrite IH. apply orb_assoc.
Qed.

Lemma String_split_without sep s :
  has_char sep s = false -> String_split sep s = [s].
Proof.
  induction s as [|a s IH]; simpl; [reflexivity|].
  intros Hno. apply orb_false_iff in Hno as [Ha Hs].
  rewrite Ha, (IH Hs). reflexivity.
Qed.

Lemma String_split_at sep s1 s2 :
  has_char sep s1 = false ->
  String_split sep (s1 +:+ String sep s2) = s1 :: String_split sep s2.
Proof.
  induction s1 as [|a s1 IH]; simpl.
  - intros _. rewrite Ascii.eqb_refl. reflexivity.
  - intros Hno. apply orb_false_iff in Hno as [Ha Hs].
    rewrite Ha, (IH Hs). reflexivity.
Qed.

Lemma String_app_assoc (s1 s2 s3 : string) :
  (s1 +:+ s2) +:+ s3 = s1 +:+ (s2 +:+ s3).
Proof. induction s1 as [|a s1 IH]; simpl; [reflexivity|]. now rewrite IH. Qed.

Lemma String_length_app (s1 s2 : string) :
  String.length (s1 +:+ s2) = (String.length s1 + String.length s2)%nat.
Proof. induction s1 as [|a s1 IH]; simpl; [reflexivity|]. now rewrite IH. Qed.

Lemma String_toBoolean_app_r s1 s2 :
  String_toBoolean s2 = true -> String_toBoolean (s1 +:+ s2) = true.
Proof. destruct s1; simpl; auto. Qed.

(** ** The form-urlencoded format: parsing undoes serialising *)

Module UrlEncodedFacts.
Import UrlEncoded.

(** Facts about single bytes, each settled by running through the 256
    bytes. *)
Ltac each_byte c :=
  destruct c as [[] [] [] [] [] [] [] []]; vm_compute;
  repeat split; intros; congruence.

Lemma safe_not_special c :
  is_safe c = true ->
  (c =? "+")%char = false /\ (c =? "%")%char = false /\
  (c =? "&")%char = false /\ (c =? "=")%char = false.
Proof. each_byte c. Qed.

Lemma hex_digits_of_byte c :
  let hi := hex_digit (N_of_ascii c / 16) in
  let lo := hex_digit (N_of_ascii c mod 16) in
  hex_value hi = Some (N_of_ascii c / 16)%N /\
  hex_value lo = Some (N_of_ascii c mod 16)%N /\
  ascii_of_N (16 * (N_of_ascii c / 16) + N_of_ascii c mod 16) = c /\
  is_safe hi = true /\ is_safe lo = true.
Proof. each_byte c. Qed.

Lemma encode_app s1 s2 : encode (s1 +:+ s2) = encode s1 +:+ encode s2.
Proof.
  induction s1 as [|c s1 IH]; simpl; [reflexivity|].
  rewrite IH. destruct (is_safe c); [reflexivity|].
  destruct (c =? " ")%char; reflexivity.
Qed.

(** Bytes of the safe set are written as they are. *)
Lemma encode_safe s :
  (forall c, has_char c s = true -> is_safe c = true) -> encode s = s.
Proof.
  induction s as [|c s IH]; simpl; [reflexivity|].
  intros Hsafe. rewrite (Hsafe c) by (rewrite Ascii.eqb_refl; reflexivity).
  rewrite IH; [reflexivity|].
  intros a Ha. apply Hsafe. rewrite Ha. apply orb_true_r.
Qed.

(** A byte outside the safe set, other than [+] and [%], never occurs in
    an encoded name or value: so for the separators [&] and [=], and for
    [?]. *)
Lemma encode_lacks sep s :
  is_safe sep = false -> sep <> "+"%char -> sep <> "%"%char ->
  has_char sep (encode s) = false.
Proof.
  intros Hsep Hplus Hpct.
  assert (Hsafe : forall a, is_safe a = true -> (a =? sep)%char = false).
  { intros a Ha. apply Ascii.eqb_neq. congruence. }
  assert (Hne : forall a, a <> sep -> (a =? sep)%char = false).
  { intros a Ha. apply Ascii.eqb_neq. exact Ha. }
  induction s as [|c s IH]; [reflexivity|].
  cbn [encode]. destruct (is_safe c) eqn:Hc.
  - rewrite has_char_cons, IH, (Hsafe c Hc). reflexivity.
  - destruct (c =? " ")%char.
    + rewrite has_char_cons, IH, Hne by congruence. reflexivity.
    + destruct (hex_digits_of_byte c) as (_ & _ & _ & Hhi & Hlo).
      unfold percent_encode_byte. cbn [String.append].
      rewrite !has_char_cons, IH, (Hsafe _ Hhi), (Hsafe _ Hlo), Hne
        by congruence.
      reflexivity.
Qed.

Lemma encode_no_separator sep s :
  sep = "&"%char \/ sep = "="%char -> has_char sep (encode s) = false.
Proof.
  intros [->| ->]; apply encode_lacks; reflexivity || discriminate.
Qed.

Lemma decode_encode s : decode (encode s) = s.
Proof.
  unfold decode. induction s as [|c s IH]; simpl; [reflexivity|].
  destruct (is_safe c) eqn:Hc.
  - destruct (safe_not_special c Hc) as (Hplus & Hpct & _ & _).
    simpl. rewrite Hplus. simpl. rewrite Hpct, IH. reflexivity.
  - destruct (c =? " ")%char eqn:Hsp.
    + apply Ascii.eqb_eq in Hsp. subst c. simpl. rewrite IH. reflexivity.
    + destruct (hex_digits_of_byte c) as (Hhi & Hlo & Hbyte & Shi & Slo).
      destruct (safe_not_special _ Shi) as (Hplus1 & _ & _ & _).
      destruct (safe_not_special _ Slo) as (Hplus2 & _ & _ & _).
      cbn [percent_encode_byte String.append plus_to_space].
      rewrite Hplus1, Hplus2.
      change ("%" =? "+")%char with false.
      cbn [percent_decode]. change ("%" =? "%")%char with true.
      cbv iota. rewrite Hhi, Hlo, Hbyte, IH. reflexivity.
Qed.

Lemma name_value_at s1 s2 :
  has_char "=" s1 = false -> name_value (s1 +:+ String "=" s2) = (s1, s2).
Proof.
  induction s1 as [|a s1 IH]; simpl; [reflexivity|].
  intros Hno. apply orb_false_iff in Hno as [Ha Hs].
  rewrite Ha, (IH Hs). reflexivity.
Qed.

Lemma parse_sequence_serialize_pair p :
  parse_sequence (serialize_pair p) = [p].
Proof.
  destruct p as [name value]. unfold parse_sequence, serialize_pair. simpl.
  rewrite name_value_at by (apply encode_no_separator; auto).
  rewrite !decode_encode.
  destruct (encode name); reflexivity.
Qed.

Lemma serialize_pair_no_amp p : has_char "&" (serialize_pair p) = false.
Proof.
  unfold serialize_pair. rewrite !has_char_app.
  rewrite !encode_no_separator by auto. reflexivity.
Qed.

Lemma serialize_pair_nonempty p : String_toBoolean (serialize_pair p) = true.
Proof.
  unfold serialize_pair. apply String_toBoolean_app_r. reflexivity.
Qed.

Lemma serialize_cons p pairs :
  serialize (p :: pairs) =
  match pairs with
  | [] => serialize_pair p
  | _ :: _ => serialize_pair p +:+ String "&" (serialize pairs)
  end.
Proof. destruct pairs; reflexivity. Qed.

(** The round trip of the format, for every list of tuples. *)
Lemma parse_serialize pairs : parse (serialize pairs) = pairs.
Proof.
  induction pairs as [|p pairs IH]; [reflexivity|].
  rewrite serialize_cons. destruct pairs as [|q pairs].
  - unfold parse.
    rewrite String_split_without by apply serialize_pair_no_amp.
    simpl. rewrite parse_sequence_serialize_pair. reflexivity.
  - unfold parse in *.
    rewrite String_split_at by apply serialize_pair_no_amp.
    simpl flat_map. rewrite parse_sequence_serialize_pair, IH. reflexivity.
Qed.

(** Only the empty list serialises to the empty string. *)
Lemma serialize_truthy pairs :
  String_toBoolean (serialize pairs) = negb (match pairs with [] => true | _ => false end).
Proof.
  destruct pairs as [|p pairs]; [reflexivity|].
  rewrite serialize_cons. destruct pairs.
  - apply serialize_pair_nonempty.
  - simpl. apply String_toBoolean_app_r. reflexivity.
Qed.

Lemma serialize_no_question pairs : has_char "?" (serialize pairs) = false.
Proof.
  induction pairs as [|p pairs IH]; [reflexivity|].
  assert (Hp : has_char "?" (serialize_pair p) = false).
  { unfold serialize_pair. rewrite !has_char_app.
    rewrite !encode_lacks by (reflexivity || discriminate). reflexivity. }
  rewrite serialize_cons. destruct pairs; [exact Hp|].
  rewrite has_char_app, Hp. simpl. exact IH.
Qed.

End UrlEncodedFacts.

(** ** utils.ts: what [buildUrlWithParams] returns *)

Section UtilsFacts.
Context {number : Type} `{JsNumber number}.
Implicit Types (params before after : list (string * ParamValue number)).
Implicit Types (key url : string) (value : ParamValue number).

Lemma append_items key (items : list (ArrayItem number)) sp :
  fold_left
    (fun sp item =>
       URLSearchParams.append sp (key +:+ "[]") (String_of_item item))
    items sp
  = sp ++ map (fun item => (key +:+ "[]", String_of_item item)) items.
Proof.
  revert sp. induction items as [|item items IH]; intros sp; simpl.
  - symmetry. apply app_nil_r.
  - rewrite IH. unfold URLSearchParams.append.
    rewrite <- app_assoc. reflexivity.
Qed.

Lemma appendEntry_tuples sp entry :
  appendEntry sp entry = sp ++ entryTuples entry.
Proof.
  destruct entry as [key [| |s|n|b|items]]; simpl;
    try (symmetry; apply app_nil_r); try reflexivity.
  apply append_items.
Qed.

Lemma fold_appendEntry params sp :
  fold_left appendEntry params sp = sp ++ flat_map entryTuples params.
Proof.
  revert sp. induction params as [|entry params IH]; intros sp; simpl.
  - symmetry. apply app_nil_r.
  - rewrite IH, appendEntry_tuples, <- app_assoc. reflexivity.
Qed.

(** The loop collects the tuples of the entries, in order. *)
Lemma searchParamsOf_tuples params :
  searchParamsOf params = flat_map entryTuples params.
Proof. unfold searchParamsOf. apply fold_appendEntry. Qed.

Lemma searchParamsOf_app before after :
  searchParamsOf (before ++ after) = searchParamsOf before ++ searchParamsOf after.
Proof. rewrite !searchParamsOf_tuples. apply flat_map_app. Qed.

Lemma searchParamsOf_cons entry params :
  searchParamsOf (entry :: params) = entryTuples entry ++ searchParamsOf params.
Proof. rewrite !searchParamsOf_tuples. reflexivity. Qed.

Lemma segmentsOf_app before after :
  segmentsOf (before ++ after) = segmentsOf before ++ segmentsOf after.
Proof. unfold segmentsOf. rewrite searchParamsOf_app. apply map_app. Qed.

Lemma segmentsOf_cons entry params :
  segmentsOf (entry :: params)
  = map UrlEncoded.serialize_pair (entryTuples entry) ++ segmentsOf params.
Proof. unfold segmentsOf. rewrite searchParamsOf_cons. apply map_app. Qed.

Lemma queryStringOf_segments params :
  queryStringOf params = String.concat "&" (segmentsOf params).
Proof. reflexivity. Qed.

(** The result is the path alone exactly when no tuple was collected. *)
Lemma buildUrlWithParams_cases url params :
  buildUrlWithParams url params =
  match searchParamsOf params with
  | [] => url
  | _ :: _ => url +:+ "?" +:+ queryStringOf params
  end.
Proof.
  unfold buildUrlWithParams, queryStringOf, URLSearchParams.toString.
  rewrite UrlEncodedFacts.serialize_truthy.
  destruct (searchParamsOf params); reflexivity.
Qed.

Lemma buildUrlWithParams_no_tuple url params :
  searchParamsOf params = [] -> buildUrlWithParams url params = url.
Proof. intros Hnone. rewrite buildUrlWithParams_cases, Hnone. reflexivity. Qed.

Lemma buildUrlWithParams_some_tuple url params :
  searchParamsOf params <> [] ->
  buildUrlWithParams url params = url +:+ "?" +:+ queryStringOf params.
Proof.
  intros Hsome. rewrite buildUrlWithParams_cases.
  destruct (searchParamsOf params); congruence.
Qed.

Lemma no_tuple_of_entries (P : string * ParamValue number -> Prop) params :
  (forall entry, P entry -> entryTuples entry = []) ->
  Forall P params -> searchParamsOf params = [].
Proof.
  intros Hnone Hall. rewrite searchParamsOf_tuples.
  induction Hall as [|entry params Hentry _ IH]; simpl; [reflexivity|].
  rewrite (Hnone _ Hentry), IH. reflexivity.
Qed.

(** For a mapping without arrays the tuples are the non-absent entries. *)
Lemma searchParamsOf_scalars params :
  Forall (fun entry => isArray (snd entry) = false) params ->
  searchParamsOf params = presentEntries params.
Proof.
  intros Hall. rewrite searchParamsOf_tuples. unfold presentEntries.
  induction Hall as [|[key value] params Hentry _ IH]; simpl; [reflexivity|].
  rewrite IH. destruct value; simpl in *; congruence.
Qed.

Lemma bracket_name_differs key : key +:+ "[]" <> key.
Proof.
  intros Heq. apply (f_equal String.length) in Heq.
  rewrite String_length_app in Heq. simpl in Heq. lia.
Qed.

(** A serialised query does not start with a question mark, so the
    constructor of [URLSearchParams] parses all of it. *)
Lemma of_string_serialize pairs :
  URLSearchParams.of_string (UrlEncoded.serialize pairs) = pairs.
Proof.
  rewrite <- (UrlEncodedFacts.parse_serialize pairs) at 2.
  pose proof (UrlEncodedFacts.serialize_no_question pairs) as Hno.
  unfold URLSearchParams.of_string.
  destruct (UrlEncoded.serialize pairs) as [|c rest]; [reflexivity|].
  simpl in Hno. apply orb_false_iff in Hno as [Hc _].
  apply Ascii.eqb_neq in Hc.
  destruct c as [[] [] [] [] [] [] [] []]; try reflexivity.
  exfalso. apply Hc. reflexivity.
Qed.

End UtilsFacts.

Section UtilsClaims.
Context {number : Type} `{JsNumber number}.
Implicit Types (params before after : list (string * ParamValue number)).
Implicit Types (key url : string) (value : ParamValue number).

(** C3. When every entry of the mapping is absent ([undefined] or [null]),
    which includes the mapping without entries, [buildUrlWithParams]
    returns the base path itself: nothing is appended, no [?] either. *)
Theorem buildUrlWithParams_all_absent url params :
  Forall (fun entry => isAbsent (snd entry) = true) params ->
  buildUrlWithParams url params = url.
Proof.
  intros Hall. apply buildUrlWithParams_no_tuple.
  apply (no_tuple_of_entries _ params) in Hall; [exact Hall|].
  intros [key value] Habsent. destruct value; simpl in *; congruence.
Qed.

(** C4, as amended. A key bound to an array of length n adds exactly n
    tuples to the query, named [key[]] with the text of the item as value,
    one per element and in the order of the array, and none named [key].
    In the text of the query both the name and the value of a tuple are
    form-urlencoded, so each of the n segments reads [key%5B%5D=item] with
    the key and the item encoded: the brackets do not appear literally. *)
Theorem array_entry_expands url before key items after :
  let tuples := map (fun item => (key +:+ "[]", String_of_item item)) items in
  let segments :=
    map (fun item =>
           UrlEncoded.encode key +:+ "%5B%5D=" +:+
           UrlEncoded.encode (String_of_item item)) items in
  searchParamsOf (before ++ (key, PArray items) :: after)
  = searchParamsOf before ++ tuples ++ searchParamsOf after
  /\ length tuples = length items
  /\ Forall (fun tuple => fst tuple <> key) tuples
  /\ queryStringOf (before ++ (key, PArray items) :: after)
     = String.concat "&" (segmentsOf before ++ segments ++ segmentsOf after)
  /\ buildUrlWithParams url (before ++ (key, PArray items) :: after)
     = match items with
       | [] => buildUrlWithParams url (before ++ after)
       | _ :: _ =>
           url +:+ "?" +:+
           String.concat "&" (segmentsOf before ++ segments ++ segmentsOf after)
       end.
Proof.
  intros tuples segments.
  assert (Htuples : searchParamsOf (before ++ (key, PArray items) :: after)
                    = searchParamsOf before ++ tuples ++ searchParamsOf after).
  { rewrite searchParamsOf_app, searchParamsOf_cons. reflexivity. }
  assert (Hsegments : segmentsOf (before ++ (key, PArray items) :: after)
                      = segmentsOf before ++ segments ++ segmentsOf after).
  { rewrite segmentsOf_app, segmentsOf_cons. do 2 f_equal.
    simpl. rewrite map_map. apply map_ext. intros item.
    unfold UrlEncoded.serialize_pair. simpl fst. simpl snd.
    rewrite UrlEncodedFacts.encode_app. simpl.
    rewrite !String_app_assoc. reflexivity. }
  split; [exact Htuples|].
  split; [apply length_map|].
  split.
  { apply Forall_map, Forall_forall. intros item _. simpl.
    apply bracket_name_differs. }
  split.
  { rewrite queryStringOf_segments, Hsegments. reflexivity. }
  rewrite buildUrlWithParams_cases, Htuples.
  destruct items as [|item items].
  - simpl. rewrite buildUrlWithParams_cases, searchParamsOf_app.
    unfold queryStringOf. rewrite Htuples, searchParamsOf_app. reflexivity.
  - rewrite queryStringOf_segments, Hsegments.
    destruct (searchParamsOf before); reflexivity.
Qed.


(** C9. Only [undefined] and [null] are skipped as absent: every string,
    number and boolean is emitted as one segment [key=text] (key and text
    form-urlencoded) at the place of its entry, and the result carries the
    query.  In particular a key bound to [false], to the number 0 or to the
    empty string is emitted, as [key=false], [key=0] and [key=]. *)
Theorem falsy_scalars_are_emitted url before key after :
  let emitted value text :=
    buildUrlWithParams url (before ++ (key, value) :: after)
    = url +:+ "?" +:+
      String.concat "&"
        (segmentsOf before ++
         [UrlEncoded.encode key +:+ "=" +:+ text] ++ segmentsOf after) in
  (emitted (PBoolean false) "false"
   /\ emitted (PNumber (Number_of_Z 0)) "0"
   /\ emitted (PString "") "")
  /\ (forall b, emitted (PBoolean b) (if b then "true" else "false"))
  /\ (forall n, emitted (PNumber n) (UrlEncoded.encode (Number_toString n)))
  /\ (forall s, emitted (PString s) (UrlEncoded.encode s)).
Proof.
  assert (Hone : forall value,
             isAbsent value = false -> isArray value = false ->
             buildUrlWithParams url (before ++ (key, value) :: after)
             = url +:+ "?" +:+
               String.concat "&"
                 (segmentsOf before ++
                  [UrlEncoded.encode key +:+ "=" +:+
                   UrlEncoded.encode (String_of_param value)] ++
                  segmentsOf after)).
  { intros value Hpresent Hscalar.
    rewrite buildUrlWithParams_some_tuple.
    - rewrite queryStringOf_segments, segmentsOf_app, segmentsOf_cons.
      destruct value; simpl in *; try congruence; reflexivity.
    - rewrite searchParamsOf_app, searchParamsOf_cons.
      destruct value; simpl in *; try congruence;
        destruct (searchParamsOf before); discriminate. }
  intros emitted. unfold emitted. repeat split.
  - apply (Hone (PBoolean false)); reflexivity.
  - rewrite (Hone (PNumber (Number_of_Z 0))) by reflexivity.
    simpl String_of_param. rewrite Number_toString_int by (simpl; lia).
    reflexivity.
  - apply (Hone (PString "")); reflexivity.
  - intros b. rewrite (Hone (PBoolean b)) by reflexivity.
    destruct b; reflexivity.
  - intros n. apply (Hone (PNumber n)); reflexivity.
  - intros s. apply (Hone (PString s)); reflexivity.
Qed.

(** C10. A key bound to an empty array adds no tuple to the query; and
    when every value of the mapping is an empty array the result is the
    base path itself, as for the mapping without entries. *)
Theorem empty_arrays_add_nothing url :
  (forall before key after,
      searchParamsOf (before ++ (key, PArray []) :: after)
      = searchParamsOf (before ++ after)
      /\ buildUrlWithParams url (before ++ (key, PArray []) :: after)
         = buildUrlWithParams url (before ++ after))
  /\ (forall params,
         Forall (fun entry => snd entry = PArray []) params ->
         buildUrlWithParams url params = url
         /\ buildUrlWithParams url params = buildUrlWithParams url []).
Proof.
  split.
  - intros before key after.
    assert (Hsame : searchParamsOf (before ++ (key, PArray []) :: after)
                    = searchParamsOf (before ++ after)).
    { rewrite !searchParamsOf_app, searchParamsOf_cons. reflexivity. }
    split; [exact Hsame|].
    unfold buildUrlWithParams, queryStringOf. rewrite Hsame. reflexivity.
  - intros params Hall.
    assert (Hurl : buildUrlWithParams url params = url).
    { apply buildUrlWithParams_no_tuple.
      apply (no_tuple_of_entries _ params) in Hall; [exact Hall|].
      intros [key value]. simpl. intros ->. reflexivity. }
    split; [exact Hurl|]. rewrite Hurl. reflexivity.
Qed.

End UtilsClaims.

(** C3, at the mapping [{ a: undefined, b: null }]. *)
Lemma buildUrlWithParams_all_absent_witness :
  buildUrlWithParams (number := Z) "/syncs" [("a", PUndefined); ("b", PNull)]
  = "/syncs".
Proof.
  apply (buildUrlWithParams_all_absent (number := Z)).
  repeat constructor.
Defined.

(** C4, as the specification states it, fails: for [{ ids: [1, 2] }] the
    result holds no occurrence of [ids[]=], where two are claimed. *)
Lemma array_pairs_literal_brackets_counterexample :
  buildUrlWithParams (number := Z) "/reports"
    [("ids", PArray [ItemNumber 1; ItemNumber 2])]
  = "/reports?ids%5B%5D=1&ids%5B%5D=2"
  /\ String_occurrences "ids[]="
       (buildUrlWithParams (number := Z) "/reports"
          [("ids", PArray [ItemNumber 1; ItemNumber 2])])
     = 0%nat.
Proof. split; vm_compute; reflexivity. Qed.


(** C10, at the mapping [{ a: [], b: [] }]. *)
Lemma empty_arrays_add_nothing_witness :
  buildUrlWithParams (number := Z) "/syncs" [("a", PArray []); ("b", PArray [])]
  = "/syncs".
Proof.
  apply (proj2 (empty_arrays_add_nothing (number := Z) "/syncs")).
  repeat constructor.
Defined.

(** ** api-client.ts: one call of [apiFetch] *)

Section ApiFacts.
Context {number : Type} `{JsNumber number}.
Variable transport :
  list (AxiosRequestConfig number) -> AxiosRequestConfig number ->
  Settled (JsError number) (AxiosResponse number).
Variable loadEnv : Env.
Implicit Types (props : FetchProps number) (w : World number).

(** A call of [apiFetch] asks the transport once, with [requestOf], and
    settles with [bodyOf] of the outcome. *)
Lemma apiFetch_run props w :
  apiFetch transport loadEnv props w =
  (bodyOf (transport (requests w) (requestOf loadEnv props (env w))),
   {| env := env w;
      requests := requests w ++ [requestOf loadEnv props (env w)] |}).
Proof.
  unfold apiFetch, requestOf, verbOf, sendsPayload.
  destruct (method props =? "post")%string;
    [|destruct (method props =? "put")%string;
      [|destruct (method props =? "delete")%string;
        [|destruct (method props =? "patch")%string]]];
    unfold Promise_then, Promise_resolve, Axios_post, Axios_put, Axios_patch,
      Axios_delete, Axios_get, Axios_withData, Axios_withoutData,
      Axios_request, bodyOf; simpl;
    destruct (options props); simpl;
    match goal with
    | |- context [transport ?l ?r] => destruct (transport l r) as [response|error]
    end; try reflexivity;
    destruct (err_response error); reflexivity.
Qed.

Lemma issued_app {A} (p : Promise number A) w new :
  requests (snd (p w)) = requests w ++ new -> issued p w = new.
Proof.
  intros Hrun. unfold issued. rewrite Hrun.
  rewrite skipn_app, skipn_all, Nat.sub_diag. reflexivity.
Qed.

Lemma apiFetch_issued props w :
  issued (apiFetch transport loadEnv props) w
  = [requestOf loadEnv props (env w)].
Proof. apply issued_app. rewrite apiFetch_run. reflexivity. Qed.

Lemma requestOf_carriesHeaders props current :
  carriesHeadersOf current (requestOf loadEnv props current).
Proof.
  unfold carriesHeadersOf, requestOf. simpl.
  repeat split; simplify_map_eq; reflexivity.
Qed.

Lemma requestOf_url props current :
  cfg_url (requestOf loadEnv props current) = Some (url props).
Proof. reflexivity. Qed.

Lemma requestOf_method props current :
  cfg_method (requestOf loadEnv props current) = Some (verbOf (method props)).
Proof. reflexivity. Qed.

Lemma verbOf_other m :
  ~ In m ["get"; "post"; "put"; "delete"; "patch"] -> verbOf m = "get".
Proof.
  intros Hother. unfold verbOf.
  repeat match goal with
         | |- context [(m =? ?lit)%string] =>
             destruct (String.eqb_spec m lit) as [->|_];
             [exfalso; apply Hother; simpl; tauto|]
         end.
  reflexivity.
Qed.

End ApiFacts.

Section ApiClaims.
Context {number : Type} `{JsNumber number}.
Variable transport :
  list (AxiosRequestConfig number) -> AxiosRequestConfig number ->
  Settled (JsError number) (AxiosResponse number).
Variable loadEnv : Env.
Implicit Types (props : FetchProps number) (w : World number).

(** C1. A call of [apiFetch] hands one request to the transport.  When the
    transport answers with a response, [apiFetch] resolves with its body;
    when the transport fails with an error that carries a response (a
    status outside 2xx, such as 404), [apiFetch] resolves with the body of
    that response all the same; when the error carries no response
    (network failure, timeout, DNS failure), [apiFetch] rejects with that
    very error. *)
Theorem apiFetch_passes_responses_through props w :
  let request := requestOf loadEnv props (env w) in
  let outcome := transport (requests w) request in
  let result := fst (apiFetch transport loadEnv props w) in
  issued (apiFetch transport loadEnv props) w = [request]
  /\ (forall response,
         outcome = Fulfilled response -> result = Fulfilled (res_data response))
  /\ (forall error response,
         outcome = Rejected error -> err_response error = Some response ->
         result = Fulfilled (res_data response))
  /\ (forall error,
         outcome = Rejected error -> err_response error = None ->
         result = Rejected error).
Proof.
  intros request outcome result.
  split; [apply apiFetch_issued|].
  subst result. rewrite apiFetch_run. fold request. fold outcome. simpl.
  repeat split.
  - intros response ->. reflexivity.
  - intros error response -> Hresponse. simpl. rewrite Hresponse. reflexivity.
  - intros error -> Hnone. simpl. rewrite Hnone. reflexivity.
Qed.

(** C7. Whatever the endpoint and the method, the request that a call of
    [apiFetch] hands to the transport carries the headers [Workspace-Id],
    [Authorization: Bearer token], [Accept: */*] and
    [Content-Type: application/json], the workspace and the token being
    those of the configuration at the time of the call: of two calls made
    around a change of the configuration, the first carries the values
    before the change and the second the values after it. *)
Theorem requests_carry_current_headers props w :
  (exists request,
      issued (apiFetch transport loadEnv props) w = [request]
      /\ carriesHeadersOf (env w) request)
  /\ (forall props' changed,
         exists first second,
           issued
             (afterwards (apiFetch transport loadEnv props)
                (afterwards (setEnv changed)
                   (apiFetch transport loadEnv props'))) w
           = [first; second]
           /\ carriesHeadersOf (env w) first
           /\ carriesHeadersOf changed second).
Proof.
  split.
  - exists (requestOf loadEnv props (env w)).
    split; [apply apiFetch_issued|apply requestOf_carriesHeaders].
  - intros props' changed.
    exists (requestOf loadEnv props (env w)), (requestOf loadEnv props' changed).
    split; [|split; apply requestOf_carriesHeaders].
    apply issued_app. unfold afterwards, setEnv.
    rewrite !apiFetch_run. simpl. rewrite <- app_assoc. reflexivity.
Qed.

(** C8. Called with a method outside [get], [post], [put], [delete] and
    [patch], [apiFetch] does what it does for [get] with the same url and
    options, whatever the payload: it hands the transport one [get]
    request for the url, whose body is not the payload (it is the one of
    the options, none unless they hold one), and returns the body of the
    response. *)
Theorem apiFetch_unknown_method_is_get props payload w :
  ~ In (method props) ["get"; "post"; "put"; "delete"; "patch"] ->
  apiFetch transport loadEnv props w
  = apiFetch transport loadEnv
      {| url := url props; method := "get"; data := payload;
         options := options props |} w
  /\ exists request,
      issued (apiFetch transport loadEnv props) w = [request]
      /\ cfg_method request = Some "get"
      /\ cfg_url request = Some (url props)
      /\ cfg_data request = cfg_data (default emptyConfig (options props))
      /\ fst (apiFetch transport loadEnv props w)
         = bodyOf (transport (requests w) request).
Proof.
  intros Hother. pose proof (verbOf_other _ Hother) as Hverb.
  assert (Hsame : requestOf loadEnv props (env w)
                  = requestOf loadEnv
                      {| url := url props; method := "get"; data := payload;
                         options := options props |} (env w)).
  { unfold requestOf. simpl. rewrite Hverb. reflexivity. }
  split.
  - rewrite !apiFetch_run, <- Hsame. reflexivity.
  - exists (requestOf loadEnv props (env w)).
    split; [apply apiFetch_issued|].
    split; [rewrite requestOf_method, Hverb; reflexivity|].
    split; [reflexivity|].
    split; [unfold requestOf; rewrite Hverb; reflexivity|].
    rewrite apiFetch_run. reflexivity.
Qed.

End ApiClaims.

(** ** models.ts and dashboard.ts *)

Section EndpointClaims.
Context {number : Type} `{JsNumber number}.
Variable transport :
  list (AxiosRequestConfig number) -> AxiosRequestConfig number ->
  Settled (JsError number) (AxiosResponse number).
Variable loadEnv : Env.
Implicit Types (w : World number).

Lemma executeModel_run modelId w :
  executeModel transport loadEnv modelId w =
  let lookup :=
    apiFetch transport loadEnv
      {| method := "get"; url := "/models/" +:+ modelId;
         data := JUndefined; options := None |} w in
  match fst lookup with
  | Rejected error => (Rejected error, snd lookup)
  | Fulfilled modelResponse =>
      match getProperty modelResponse "data" with
      | Rejected error => (Rejected error, snd lookup)
      | Fulfilled modelData =>
          if toBoolean modelData then
            match getProperty modelData "attributes" with
            | Rejected error => (Rejected error, snd lookup)
            | Fulfilled attributes =>
                match getProperty attributes "query",
                      getProperty attributes "connector" with
                | Fulfilled query, Fulfilled connector =>
                    match getProperty connector "id" with
                    | Fulfilled connectorId =>
                        querySource transport loadEnv connectorId query
                          (snd lookup)
                    | Rejected error => (Rejected error, snd lookup)
                    end
                | Rejected error, _ => (Rejected error, snd lookup)
                | _, Rejected error => (Rejected error, snd lookup)
                end
            end
          else (Fulfilled modelNotFound, snd lookup)
      end
  end.
Proof.
  unfold executeModel, getModelById, Promise_then, Promise_of, Promise_resolve.
  cbv zeta.
  destruct (apiFetch transport loadEnv _ w) as [[modelResponse|error] w1];
    simpl; [|reflexivity].
  destruct (getProperty modelResponse "data") as [modelData|error];
    [|reflexivity].
  destruct (toBoolean modelData); simpl; [|reflexivity].
  destruct (getProperty modelData "attributes") as [attributes|error];
    [|reflexivity].
  destruct (getProperty attributes "query") as [query|error];
    destruct (getProperty attributes "connector") as [connector|error'];
    reflexivity.
Qed.


End EndpointClaims.

Section DashboardClaims.
Context {number : Type} `{JsNumber number}.
Variable transport :
  list (AxiosRequestConfig number) -> AxiosRequestConfig number ->
  Settled (JsError number) (AxiosResponse number).
Variable loadEnv : Env.
Implicit Types (w : World number).

(** The request of [getReport], by the fields of its options. *)
Lemma getReport_issued m p ids w :
  map (fun request => (cfg_method request, cfg_url request))
    (issued
       (getReport transport loadEnv
          (Some {| metric := m; timePeriod := p; connectorIds := ids |})) w)
  = [(Some "get",
      Some
        (buildUrlWithParams "/reports"
           [("type", PString "workspace_activity");
            ("metric", PString (ReportMetric_name (default all m)));
            ("time_period",
             PString (ReportTimePeriod_name (default one_week p)));
            ("connector_ids",
             match default [] ids with
             | [] => PUndefined
             | _ :: _ => PArray (map ItemNumber (default [] ids))
             end)]))].
Proof.
  unfold getReport. rewrite apiFetch_issued. simpl.
  destruct (default [] ids); reflexivity.
Qed.

(** C6, as amended. With an empty list of connector ids, or none, the
    request of [getReport] is a [get] of the reports path with the type, the
    metric and the time period only: [connector_ids] does not occur in it.
    With the ids 1 and 2 the query string ends in
    [connector_ids%5B%5D=1&connector_ids%5B%5D=2], which a parser of the
    format reads as the two tuples named [connector_ids[]] with values 1
    and 2: the brackets travel percent-encoded. *)
Theorem getReport_connector_ids m p w :
  let report ids :=
    getReport transport loadEnv
      (Some {| metric := m; timePeriod := p; connectorIds := ids |}) in
  let sent ids :=
    map (fun request => (cfg_method request, cfg_url request))
      (issued (report ids) w) in
  let query :=
    "type=workspace_activity&metric=" +:+ ReportMetric_name (default all m) +:+
    "&time_period=" +:+ ReportTimePeriod_name (default one_week p) in
  sent (Some []) = [(Some "get", Some ("/reports?" +:+ query))]
  /\ sent None = [(Some "get", Some ("/reports?" +:+ query))]
  /\ String_includes "connector_ids" ("/reports?" +:+ query) = false
  /\ sent (Some [Number_of_Z 1; Number_of_Z 2])
     = [(Some "get",
         Some ("/reports?" +:+ query +:+
               "&connector_ids%5B%5D=1&connector_ids%5B%5D=2"))]
  /\ URLSearchParams.of_string
       (query +:+ "&connector_ids%5B%5D=1&connector_ids%5B%5D=2")
     = [("type", "workspace_activity");
        ("metric", ReportMetric_name (default all m));
        ("time_period", ReportTimePeriod_name (default one_week p));
        ("connector_ids[]", "1"); ("connector_ids[]", "2")].
Proof.
  intros report sent query. unfold sent, report.
  rewrite !getReport_issued. simpl default at 1 2 3.
  unfold buildUrlWithParams, queryStringOf, searchParamsOf.
  simpl fold_left. rewrite !Number_toString_int by (simpl; lia).
  subst query.
  destruct m as [[]|], p as [[]|]; vm_compute; repeat split; reflexivity.
Qed.

End DashboardClaims.

(** ** The claims at concrete inputs *)

(** C1, at a lookup the backend answers with status 404, and at a transport
    that reaches no server. *)
Lemma apiFetch_passes_responses_through_witness :
  fst (apiFetch sampleTransport sampleEnv
         {| url := "/models/nope"; method := "get"; data := JUndefined;
            options := None |} sampleWorld)
  = Fulfilled
      (JObject
         [("errors",
           JArray
             [JObject
                [("status", JNumber 404); ("title", JString "Not Found");
                 ("detail", JString "no such record")]])])
  /\ fst (apiFetch offlineTransport sampleEnv
            {| url := "/models/nope"; method := "get"; data := JUndefined;
               options := None |} sampleWorld)
     = Rejected
         {| err_name := "AxiosError"; err_message := "Network Error";
            err_response := None |}.
Proof.
  split.
  - refine (proj1 (proj2 (proj2
      (apiFetch_passes_responses_through sampleTransport sampleEnv
         {| url := "/models/nope"; method := "get"; data := JUndefined;
            options := None |} sampleWorld))) _ _ eq_refl eq_refl).
  - refine (proj2 (proj2 (proj2
      (apiFetch_passes_responses_through offlineTransport sampleEnv
         {| url := "/models/nope"; method := "get"; data := JUndefined;
            options := None |} sampleWorld))) _ eq_refl eq_refl).
Defined.


(** C6, as the specification states it, fails: the request for the ids 1 and
    2 does not hold [connector_ids[]=1&connector_ids[]=2]. *)
Lemma getReport_literal_brackets_counterexample :
  map cfg_url
    (issued
       (getReport sampleTransport sampleEnv
          (Some {| metric := None; timePeriod := None;
                   connectorIds := Some [1; 2] |})) sampleWorld)
  = [Some "/reports?type=workspace_activity&metric=all&time_period=one_week&connector_ids%5B%5D=1&connector_ids%5B%5D=2"]
  /\ String_includes "connector_ids[]=1&connector_ids[]=2"
       "/reports?type=workspace_activity&metric=all&time_period=one_week&connector_ids%5B%5D=1&connector_ids%5B%5D=2"
     = false.
Proof. split; vm_compute; reflexivity. Qed.

(** C8, at the method [head]. *)
Lemma apiFetch_unknown_method_is_get_witness :
  apiFetch sampleTransport sampleEnv
    {| url := "/models/m1"; method := "head";
       data := JObject [("query", JString "select 1")]; options := None |}
    sampleWorld
  = apiFetch sampleTransport sampleEnv
      {| url := "/models/m1"; method := "get"; data := JUndefined;
         options := None |} sampleWorld.
Proof.
  refine (proj1 (apiFetch_unknown_method_is_get sampleTransport sampleEnv
                   {| url := "/models/m1"; method := "head";
                      data := JObject [("query", JString "select 1")];
                      options := None |} JUndefined sampleWorld _)).
  simpl. intros [Hm|[Hm|[Hm|[Hm|[Hm|[]]]]]]; discriminate Hm.
Defined.

(** One entry of each kind, with characters that need escaping. *)
Example buildUrlWithParams_sample :
  buildUrlWithParams (number := Z) "/models"
    [("q", PString "a b&c"); ("page", PNumber 0); ("draft", PBoolean false);
     ("tag", PNull); ("name", PString ""); ("ids", PArray [ItemNumber 3; ItemString "x/y"]);
     ("none", PArray []); ("gone", PUndefined)]
  = "/models?q=a+b%26c&page=0&draft=false&name=&ids%5B%5D=3&ids%5B%5D=x%2Fy".
Proof. vm_compute. reflexivity. Qed.

(** [fetchSyncs(2, 5)] asks for [/syncs?page=2&per_page=5], and without
    arguments for the first page of ten. *)
Example fetchSyncs_sample :
  map cfg_url (issued (fetchSyncs sampleTransport sampleEnv (Some 2) (Some 5)) sampleWorld)
  = [Some "/syncs?page=2&per_page=5"]
  /\ map cfg_url (issued (fetchSyncs sampleTransport sampleEnv None None) sampleWorld)
     = [Some "/syncs?page=1&per_page=10"].
Proof. split; vm_compute; reflexivity. Qed.

(** The request of the sample lookup as the transport receives it: the verb,
    the base URL fixed when the client was built, and the four headers. *)
Example request_sample :
  map (fun request =>
         (cfg_method request, cfg_baseURL request, cfg_url request,
          map_to_list (cfg_headers request)))
    (issued (getModelById sampleTransport sampleEnv "m1") sampleWorld)
  = [(Some "get", Some "https://api.example.test/api/v1", Some "/models/m1",
      map_to_list
        (<["Workspace-Id" := "7"]>
           (<["Authorization" := "Bearer secret"]>
              (<["Accept" := "*/*"]>
                 (<["Content-Type" := "application/json"]> ∅)))
         : gmap string string))].
Proof. vm_compute. reflexivity. Qed.

(** * Further properties of the code *)

(** ** Strings *)

Lemma count_char_app c s1 s2 :
  count_char c (s1 +:+ s2) = (count_char c s1 + count_char c s2)%nat.
Proof.
  induction s1 as [|a s1 IH]; simpl; [reflexivity|].
  rewrite IH. apply Nat.add_assoc.
Qed.

Lemma count_char_absent c s : has_char c s = false -> count_char c s = 0%nat.
Proof.
  induction s as [|a s IH]; simpl; [reflexivity|].
  intros Hno. apply orb_false_iff in Hno as [Ha Hs].
  rewrite Ha, (IH Hs). reflexivity.
Qed.

Lemma all_chars_app ok s1 s2 :
  all_chars ok (s1 +:+ s2) = all_chars ok s1 && all_chars ok s2.
Proof.
  induction s1 as [|a s1 IH]; simpl; [reflexivity|].
  rewrite IH. apply andb_assoc.
Qed.

Lemma String_startsWith_app s t : String_startsWith s (s +:+ t) = true.
Proof.
  induction s as [|a s IH]; simpl; [destruct t; reflexivity|].
  rewrite Ascii.eqb_refl. exact IH.
Qed.

Lemma String_app_nonempty_differs (s t : string) :
  String_toBoolean t = true -> s +:+ t <> s.
Proof.
  intros Ht Heq. apply (f_equal String.length) in Heq.
  rewrite String_length_app in Heq. destruct t; [discriminate|].
  simpl in Heq. lia.
Qed.

Lemma String_concat_app sep (l1 l2 : list string) :
  String.concat sep (l1 ++ l2) =
  match l1, l2 with
  | [], _ => String.concat sep l2
  | _, [] => String.concat sep l1
  | _ :: _, _ :: _ => String.concat sep l1 +:+ sep +:+ String.concat sep l2
  end.
Proof.
  induction l1 as [|x l1 IH]; [reflexivity|].
  destruct l2 as [|y l2]; [rewrite app_nil_r; reflexivity|].
  destruct l1 as [|x' l1]; [reflexivity|].
  change (String.concat sep ((x :: x' :: l1) ++ y :: l2))
    with (x +:+ sep +:+ String.concat sep ((x' :: l1) ++ y :: l2)).
  rewrite IH.
  change (String.concat sep (x :: x' :: l1))
    with (x +:+ sep +:+ String.concat sep (x' :: l1)).
  rewrite !String_app_assoc. reflexivity.
Qed.

(** ** The bytes of a serialised query *)

Module QueryBytes.
Import UrlEncoded.

Lemma safe_is_query_byte c : is_safe c = true -> is_query_byte c = true.
Proof. intros Hc. unfold is_query_byte. rewrite Hc. reflexivity. Qed.

Lemma encode_query_bytes s : all_chars is_query_byte (encode s) = true.
Proof.
  induction s as [|c s IH]; [reflexivity|].
  cbn [encode]. destruct (is_safe c) eqn:Hc.
  - cbn [all_chars]. rewrite IH, (safe_is_query_byte c Hc). reflexivity.
  - destruct (c =? " ")%char.
    + cbn [all_chars]. rewrite IH. reflexivity.
    + destruct (UrlEncodedFacts.hex_digits_of_byte c) as (_ & _ & _ & Hhi & Hlo).
      unfold percent_encode_byte. cbn [String.append all_chars].
      rewrite IH, (safe_is_query_byte _ Hhi), (safe_is_query_byte _ Hlo).
      reflexivity.
Qed.

Lemma serialize_pair_query_bytes p :
  all_chars is_query_byte (serialize_pair p) = true.
Proof.
  unfold serialize_pair. rewrite !all_chars_app, !encode_query_bytes.
  reflexivity.
Qed.

Lemma serialize_query_bytes pairs :
  all_chars is_query_byte (serialize pairs) = true.
Proof.
  induction pairs as [|p pairs IH]; [reflexivity|].
  rewrite UrlEncodedFacts.serialize_cons.
  destruct pairs; [apply serialize_pair_query_bytes|].
  rewrite all_chars_app, serialize_pair_query_bytes.
  cbn [all_chars]. rewrite IH. reflexivity.
Qed.

(** The decimal numeral of an integer is left as it is by the encoding. *)
Lemma encode_uint d :
  encode (NilEmpty.string_of_uint d) = NilEmpty.string_of_uint d.
Proof. induction d; simpl; [reflexivity|rewrite IHd; reflexivity ..]. Qed.

Lemma encode_decimal z :
  encode (NilZero.string_of_int (Z.to_int z))
  = NilZero.string_of_int (Z.to_int z).
Proof.
  unfold NilZero.string_of_int, NilZero.string_of_uint.
  destruct (Z.to_int z) as [d|d]; destruct d; simpl;
    rewrite ?encode_uint; reflexivity.
Qed.

End QueryBytes.

(** ** utils.ts: further properties of [buildUrlWithParams] *)

Section UtilsExtras.
Context {number : Type} `{JsNumber number}.
Implicit Types (params before after : list (string * ParamValue number)).
Implicit Types (key url : string) (value : ParamValue number).

Lemma entryTuples_none entry :
  entryTuples entry = [] <->
  isAbsent (snd entry) = true \/ snd entry = PArray [].
Proof.
  destruct entry as [key [| |s|n|b|[|item items]]]; simpl; split;
    intros; auto; try discriminate;
    match goal with
    | Hor : _ \/ _ |- _ => destruct Hor; discriminate
    end.
Qed.

Lemma searchParamsOf_none params :
  searchParamsOf params = [] <->
  Forall (fun entry => isAbsent (snd entry) = true \/ snd entry = PArray [])
    params.
Proof.
  rewrite searchParamsOf_tuples.
  induction params as [|entry params IH]; simpl.
  - split; [constructor|reflexivity].
  - split.
    + intros Hnil. apply app_eq_nil in Hnil as [Hentry Hrest].
      constructor; [apply entryTuples_none, Hentry|apply IH, Hrest].
    + intros Hall. inversion Hall as [|? ? Hentry Hrest]; subst.
      apply entryTuples_none in Hentry. apply IH in Hrest.
      rewrite Hentry, Hrest. reflexivity.
Qed.


(** X2. The result is the base path itself exactly when every entry is
    absent or an empty array; otherwise it is strictly longer. *)
Theorem buildUrlWithParams_unchanged_iff url params :
  buildUrlWithParams url params = url <->
  Forall (fun entry => isAbsent (snd entry) = true \/ snd entry = PArray [])
    params.
Proof.
  rewrite <- searchParamsOf_none. split.
  - intros Hsame. destruct (searchParamsOf params) as [|t tuples] eqn:Htuples;
      [reflexivity|].
    exfalso. rewrite buildUrlWithParams_some_tuple in Hsame
      by (rewrite Htuples; discriminate).
    revert Hsame. apply String_app_nonempty_differs. reflexivity.
  - apply buildUrlWithParams_no_tuple.
Qed.

(** X3. The base path is kept as it is, as a prefix of the result, and the
    query is joined with a question mark of its own: the result holds one
    more [?] than the path when there is a query, also when the path
    already holds one, and the same number when there is none. *)
Theorem buildUrlWithParams_joins_with_question_mark url params :
  String_startsWith url (buildUrlWithParams url params) = true
  /\ count_char "?" (buildUrlWithParams url params)
     = (count_char "?" url +
        if String_toBoolean (queryStringOf params) then 1 else 0)%nat.
Proof.
  unfold buildUrlWithParams.
  destruct (String_toBoolean (queryStringOf params)).
  - split; [apply String_startsWith_app|].
    rewrite !count_char_app. simpl.
    rewrite (count_char_absent "?" (queryStringOf params))
      by apply UrlEncodedFacts.serialize_no_question.
    lia.
  - split; [|lia].
    rewrite <- (String_startsWith_app url ""). f_equal.
    induction url as [|a url IH]; simpl; [reflexivity|].
    rewrite <- IH. reflexivity.
Qed.

(** X4. The query string is made of ASCII letters and digits, of [*], [-],
    [.], [_], and of [+], [%], [=] and [&] only: no blank, no [#], no [?],
    no byte above 127, whatever the keys and values hold. *)
Theorem queryString_bytes params :
  all_chars is_query_byte (queryStringOf params) = true
  /\ has_char " " (queryStringOf params) = false
  /\ has_char "#" (queryStringOf params) = false
  /\ has_char "?" (queryStringOf params) = false.
Proof.
  assert (Hall : all_chars is_query_byte (queryStringOf params) = true)
    by apply QueryBytes.serialize_query_bytes.
  assert (Hnot : forall c, is_query_byte c = false ->
                   has_char c (queryStringOf params) = false).
  { intros c Hc. induction (queryStringOf params) as [|a s IH];
      [reflexivity|].
    simpl in Hall. apply andb_true_iff in Hall as [Ha Hs].
    rewrite has_char_cons, (IH Hs), orb_false_r.
    apply Ascii.eqb_neq. congruence. }
  split; [exact Hall|].
  repeat split; apply Hnot; reflexivity.
Qed.

(** X5. The query string of two mappings put one after the other is the
    query strings of the two joined by [&], or the one that is not empty. *)
Theorem queryStringOf_app before after :
  queryStringOf (before ++ after) =
  if String_toBoolean (queryStringOf before) then
    if String_toBoolean (queryStringOf after)
    then queryStringOf before +:+ "&" +:+ queryStringOf after
    else queryStringOf before
  else queryStringOf after.
Proof.
  unfold queryStringOf, URLSearchParams.toString.
  rewrite !UrlEncodedFacts.serialize_truthy, searchParamsOf_app.
  unfold UrlEncoded.serialize. rewrite map_app, String_concat_app.
  destruct (searchParamsOf before), (searchParamsOf after); reflexivity.
Qed.

(** X6. Absent entries do not count: dropping every [undefined] and [null]
    entry from the mapping, wherever it stands, leaves the result as it
    is. *)
Theorem buildUrlWithParams_ignores_absent url params :
  buildUrlWithParams url params
  = buildUrlWithParams url
      (filter (fun entry => negb (isAbsent (snd entry))) params).
Proof.
  unfold buildUrlWithParams, queryStringOf.
  replace (searchParamsOf
             (filter (fun entry => negb (isAbsent (snd entry))) params))
    with (searchParamsOf params); [reflexivity|].
  rewrite !searchParamsOf_tuples.
  induction params as [|[key value] params IH]; [reflexivity|].
  simpl. destruct value; simpl; rewrite IH; reflexivity.
Qed.

End UtilsExtras.

(** ** api-client.ts: the verbs, the request handler, the base URL *)

Section ApiExtras.
Context {number : Type} `{JsNumber number}.
Variable transport :
  list (AxiosRequestConfig number) -> AxiosRequestConfig number ->
  Settled (JsError number) (AxiosResponse number).
Variable loadEnv : Env.
Implicit Types (props : FetchProps number) (w : World number).

(** X7. For the methods [post], [put] and [patch], [apiFetch] hands the
    transport one request with that verb, the url, and the payload as its
    body, whatever body the options name. *)
Theorem apiFetch_sends_payload props w :
  In (method props) ["post"; "put"; "patch"] ->
  exists request,
    issued (apiFetch transport loadEnv props) w = [request]
    /\ cfg_method request = Some (method props)
    /\ cfg_url request = Some (url props)
    /\ cfg_data request = data props.
Proof.
  intros Hverb. exists (requestOf loadEnv props (env w)).
  split; [apply apiFetch_issued|].
  unfold requestOf. simpl in Hverb.
  destruct Hverb as [<-|[<-|[<-|[]]]]; repeat split.
Qed.

(** X8. For the methods [get] and [delete] the payload is not passed on:
    the call is the same whatever the payload, and its one request has that
    verb and the body of the options (none unless they name one). *)
Theorem apiFetch_drops_payload props payload w :
  In (method props) ["get"; "delete"] ->
  apiFetch transport loadEnv props w
  = apiFetch transport loadEnv
      {| url := url props; method := method props; data := payload;
         options := options props |} w
  /\ exists request,
      issued (apiFetch transport loadEnv props) w = [request]
      /\ cfg_method request = Some (method props)
      /\ cfg_url request = Some (url props)
      /\ cfg_data request = cfg_data (default emptyConfig (options props)).
Proof.
  intros Hverb.
  assert (Hsame : requestOf loadEnv props (env w)
                  = requestOf loadEnv
                      {| url := url props; method := method props;
                         data := payload; options := options props |} (env w)).
  { unfold requestOf. simpl in *.
    destruct Hverb as [<-|[<-|[]]]; reflexivity. }
  split.
  - rewrite !apiFetch_run, <- Hsame. reflexivity.
  - exists (requestOf loadEnv props (env w)).
    split; [apply apiFetch_issued|].
    unfold requestOf. simpl in Hverb.
    destruct Hverb as [<-|[<-|[]]]; repeat split.
Qed.

(** X9. The request handler of the client changes the four fixed headers
    and nothing else: every other header of the request, and its url,
    method, base URL, body and timeout, are those it was given. *)
Theorem request_handler_touches_fixed_headers_only e current
    (config : AxiosRequestConfig number) :
  let handled :=
    interceptors_request (createApiClient (number := number) e) current config in
  (forall name,
      ~ In name fixedHeaders ->
      cfg_headers handled !! name = cfg_headers config !! name)
  /\ cfg_url handled = cfg_url config
  /\ cfg_method handled = cfg_method config
  /\ cfg_baseURL handled = cfg_baseURL config
  /\ cfg_data handled = cfg_data config
  /\ cfg_timeout handled = cfg_timeout config.
Proof.
  intros handled. split; [|repeat split].
  intros name Hother. unfold handled. simpl.
  unfold fixedHeaders in Hother. simpl in Hother.
  rewrite !lookup_insert_ne; [reflexivity| | | |];
    intros <-; apply Hother; tauto.
Qed.

(** X10. The base URL is the host of the configuration in force when the
    client was built, followed by [/api/v1]: unlike the headers it does not
    follow a later change of the configuration.  A request made after a
    change carries the new workspace and token and the old host, unless the
    options of the call name a base URL. *)
Theorem baseURL_is_fixed_at_load props changed w :
  (forall o, options props = Some o -> cfg_baseURL o = None) ->
  exists request,
    issued (afterwards (setEnv changed) (apiFetch transport loadEnv props)) w
    = [request]
    /\ cfg_baseURL request = Some (VITE_API_HOST loadEnv +:+ "/api/v1")
    /\ carriesHeadersOf changed request.
Proof.
  intros Hbase. exists (requestOf loadEnv props changed).
  split; [|split].
  - apply issued_app. unfold afterwards, setEnv.
    rewrite apiFetch_run. reflexivity.
  - unfold requestOf. simpl.
    destruct (options props) as [o|] eqn:Ho; simpl; [|reflexivity].
    rewrite (Hbase o eq_refl). reflexivity.
  - apply requestOf_carriesHeaders.
Qed.

End ApiExtras.

(** ** models.ts: the edges of [executeModel] *)

Section ExecuteModelExtras.
Context {number : Type} `{JsNumber number}.
Variable transport :
  list (AxiosRequestConfig number) -> AxiosRequestConfig number ->
  Settled (JsError number) (AxiosResponse number).
Variable loadEnv : Env.
Implicit Types (w : World number).

Lemma getProperty_nullish (v : JsValue number) key :
  isNullish v = true ->
  exists message, getProperty v key = Rejected (TypeError message).
Proof. destruct v; try discriminate; intros _; eexists; reflexivity. Qed.

Lemma getProperty_defined (v : JsValue number) key :
  isNullish v = false -> exists x, getProperty v key = Fulfilled x.
Proof. destruct v; try discriminate; intros _; eexists; reflexivity. Qed.

(** The lookup alone was issued when [executeModel] stops at the world the
    lookup left. *)
Lemma executeModel_stops_after_lookup modelId w result :
  executeModel transport loadEnv modelId w
  = (result,
     snd (apiFetch transport loadEnv
            {| method := "get"; url := "/models/" +:+ modelId;
               data := JUndefined; options := None |} w)) ->
  issued (executeModel transport loadEnv modelId) w
  = [requestOf loadEnv
       {| method := "get"; url := "/models/" +:+ modelId;
          data := JUndefined; options := None |} (env w)].
Proof.
  intros Hrun. apply issued_app. rewrite Hrun, apiFetch_run. reflexivity.
Qed.

(** X11. When the lookup fails without a response, [executeModel] rejects
    with the error of the transport, and the lookup is the only request: no
    retry, no query. *)
Theorem executeModel_lookup_failure modelId w error :
  let lookupRequest :=
    requestOf loadEnv
      {| method := "get"; url := "/models/" +:+ modelId;
         data := JUndefined; options := None |} (env w) in
  transport (requests w) lookupRequest = Rejected error ->
  err_response error = None ->
  fst (executeModel transport loadEnv modelId w) = Rejected error
  /\ issued (executeModel transport loadEnv modelId) w = [lookupRequest].
Proof.
  intros lookupRequest Hfail Hnone.
  assert (Hrun : executeModel transport loadEnv modelId w
                 = (Rejected error,
                    snd (apiFetch transport loadEnv
                           {| method := "get"; url := "/models/" +:+ modelId;
                              data := JUndefined; options := None |} w))).
  { rewrite executeModel_run. cbv zeta. rewrite apiFetch_run.
    fold lookupRequest. rewrite Hfail. simpl. rewrite Hnone. reflexivity. }
  split; [rewrite Hrun; reflexivity|].
  apply (executeModel_stops_after_lookup _ _ _ Hrun).
Qed.

(** X12. Whatever the backend answers, [executeModel] issues the lookup
    first and at most one request more, which is a [post] whose payload is
    an object with the one field [query]; it leaves the configuration as it
    is. *)
Theorem executeModel_at_most_two_requests modelId w :
  let lookupRequest :=
    requestOf loadEnv
      {| method := "get"; url := "/models/" +:+ modelId;
         data := JUndefined; options := None |} (env w) in
  exists rest,
    issued (executeModel transport loadEnv modelId) w = lookupRequest :: rest
    /\ (length rest <= 1)%nat
    /\ Forall
         (fun request =>
            cfg_method request = Some "post"
            /\ exists query, cfg_data request = JObject [("query", query)])
         rest
    /\ env (snd (executeModel transport loadEnv modelId w)) = env w.
Proof.
  intros lookupRequest.
  set (lookup := {| method := "get"; url := "/models/" +:+ modelId;
                    data := JUndefined; options := None |}) in *.
  assert (Hstop : forall result,
             executeModel transport loadEnv modelId w
             = (result, snd (apiFetch transport loadEnv lookup w)) ->
             exists rest,
               issued (executeModel transport loadEnv modelId) w
               = lookupRequest :: rest
               /\ (length rest <= 1)%nat
               /\ Forall
                    (fun request =>
                       cfg_method request = Some "post"
                       /\ exists query,
                           cfg_data request = JObject [("query", query)])
                    rest
               /\ env (snd (executeModel transport loadEnv modelId w)) = env w).
  { intros result Hrun. exists [].
    split; [apply (executeModel_stops_after_lookup _ _ _ Hrun)|].
    split; [simpl; lia|]. split; [constructor|].
    rewrite Hrun, apiFetch_run. reflexivity. }
  pose proof (executeModel_run transport loadEnv modelId w) as Hrun.
  cbv zeta in Hrun. fold lookup in Hrun.
  destruct (fst (apiFetch transport loadEnv lookup w))
    as [modelResponse|error]; [|exact (Hstop _ Hrun)].
  destruct (getProperty modelResponse "data") as [modelData|error];
    [|exact (Hstop _ Hrun)].
  destruct (toBoolean modelData); [|exact (Hstop _ Hrun)].
  destruct (getProperty modelData "attributes") as [attributes|error];
    [|exact (Hstop _ Hrun)].
  destruct (getProperty attributes "query") as [query|error];
    destruct (getProperty attributes "connector") as [connector|error'];
    try exact (Hstop _ Hrun).
  destruct (getProperty connector "id") as [connectorId|error];
    [|exact (Hstop _ Hrun)].
  unfold querySource in Hrun. rewrite !apiFetch_run in Hrun.
  simpl env in Hrun. simpl requests in Hrun. fold lookupRequest in Hrun.
  eexists [_]. split; [|split; [|split]].
  - apply issued_app. rewrite Hrun. simpl. rewrite <- app_assoc. reflexivity.
  - simpl. lia.
  - constructor; [|constructor]. split; [reflexivity|].
    eexists. reflexivity.
  - rewrite Hrun. reflexivity.
Qed.


(** X14. A response that does not have the shape of a model makes
    [executeModel] reject with a [TypeError] after the lookup, without a
    query: when the body is [null], when the data is there but its
    [attributes] are missing or [null], and when the attributes are there
    but their [connector] is missing or [null]. *)
Theorem executeModel_type_errors modelId w body :
  let stops :=
    (exists message,
        fst (executeModel transport loadEnv modelId w)
        = Rejected (TypeError message))
    /\ issued (executeModel transport loadEnv modelId) w
       = [requestOf loadEnv
            {| method := "get"; url := "/models/" +:+ modelId;
               data := JUndefined; options := None |} (env w)] in
  fst (getModelById transport loadEnv modelId w) = Fulfilled body ->
  (isNullish body = true -> stops)
  /\ (forall modelData attributes,
         getProperty body "data" = Fulfilled modelData ->
         toBoolean modelData = true ->
         getProperty modelData "attributes" = Fulfilled attributes ->
         isNullish attributes = true -> stops)
  /\ (forall modelData attributes connector,
         getProperty body "data" = Fulfilled modelData ->
         toBoolean modelData = true ->
         getProperty modelData "attributes" = Fulfilled attributes ->
         getProperty attributes "connector" = Fulfilled connector ->
         isNullish connector = true -> stops).
Proof.
  intros stops. unfold getModelById. intros Hlookup.
  assert (Hstops : forall message,
             executeModel transport loadEnv modelId w
             = (Rejected (TypeError message),
                snd (apiFetch transport loadEnv
                       {| method := "get"; url := "/models/" +:+ modelId;
                          data := JUndefined; options := None |} w)) ->
             stops).
  { intros message Hrun. split.
    - exists message. rewrite Hrun. reflexivity.
    - apply (executeModel_stops_after_lookup _ _ _ Hrun). }
  pose proof (executeModel_run transport loadEnv modelId w) as Hrun.
  cbv zeta in Hrun. rewrite Hlookup in Hrun.
  split; [|split].
  - intros Hnull.
    destruct (getProperty_nullish body "data" Hnull) as [message Hthrow].
    rewrite Hthrow in Hrun. exact (Hstops _ Hrun).
  - intros modelData attributes Hdata Htruthy Hattrs Hnull.
    rewrite Hdata, Htruthy, Hattrs in Hrun.
    destruct (getProperty_nullish attributes "query" Hnull) as [message Hthrow].
    rewrite Hthrow in Hrun. exact (Hstops _ Hrun).
  - intros modelData attributes connector Hdata Htruthy Hattrs Hconn Hnull.
    rewrite Hdata, Htruthy, Hattrs, Hconn in Hrun.
    destruct (getProperty_nullish connector "id" Hnull) as [message Hthrow].
    rewrite Hthrow in Hrun.
    destruct (getProperty attributes "query") as [query|error] eqn:Hquery.
    + exact (Hstops _ Hrun).
    + destruct attributes; try discriminate Hquery;
        injection Hquery as <-; exact (Hstops _ Hrun).
Qed.

(** X15. The query text is not checked: when the model names its connector
    but holds no [query], [executeModel] still issues the query call, with
    an [undefined] query in the payload. *)
Theorem executeModel_missing_query modelId w fields model attributes
    connector connectorId :
  fst (getModelById transport loadEnv modelId w) = Fulfilled (JObject fields) ->
  lookupField "data" fields = Some (JObject model) ->
  lookupField "attributes" model = Some (JObject attributes) ->
  lookupField "query" attributes = None ->
  lookupField "connector" attributes = Some (JObject connector) ->
  lookupField "id" connector = Some (JString connectorId) ->
  exists queryRequest,
    issued (executeModel transport loadEnv modelId) w
    = [requestOf loadEnv
         {| method := "get"; url := "/models/" +:+ modelId;
            data := JUndefined; options := None |} (env w);
       queryRequest]
    /\ cfg_method queryRequest = Some "post"
    /\ cfg_url queryRequest
       = Some ("/connectors/" +:+ connectorId +:+ "/query_source")
    /\ cfg_data queryRequest = JObject [("query", JUndefined)].
Proof.
  unfold getModelById. intros Hlookup Hdata Hattrs Hquery Hconn Hid.
  pose proof (executeModel_run transport loadEnv modelId w) as Hrun.
  cbv zeta in Hrun. rewrite Hlookup in Hrun. unfold getProperty in Hrun.
  rewrite Hdata in Hrun. simpl toBoolean in Hrun. cbv iota in Hrun.
  rewrite Hattrs, Hquery, Hconn, Hid in Hrun.
  unfold querySource in Hrun. simpl toString in Hrun.
  rewrite !apiFetch_run in Hrun. simpl env in Hrun. simpl requests in Hrun.
  eexists. split.
  { apply issued_app. rewrite Hrun. simpl. rewrite <- app_assoc.
    reflexivity. }
  repeat split.
Qed.

End ExecuteModelExtras.

(** ** The endpoint modules *)

Section EndpointExtras.
Context {number : Type} `{JsNumber number}.
Variable transport :
  list (AxiosRequestConfig number) -> AxiosRequestConfig number ->
  Settled (JsError number) (AxiosResponse number).
Variable loadEnv : Env.
Implicit Types (w : World number).

(** Verb and url of the one request of a call of [apiFetch]. *)
Lemma apiFetch_verb_url (props : FetchProps number) w :
  map (fun request => (cfg_method request, cfg_url request))
    (issued (apiFetch transport loadEnv props) w)
  = [(Some (verbOf (method props)), Some (url props))].
Proof. rewrite apiFetch_issued. reflexivity. Qed.

(** The text of a safe integer in a query. *)
Lemma encode_Number_of_Z z :
  Z.abs z < 2 ^ 53 ->
  UrlEncoded.encode (Number_toString (Number_of_Z z)) = decimal z.
Proof.
  intros Hsafe. rewrite Number_toString_int by exact Hsafe.
  apply QueryBytes.encode_decimal.
Qed.

(** The result for a mapping, from its tuples. *)
Lemma buildUrlWithParams_tuples url (params : list (string * ParamValue number))
    tuple tuples :
  flat_map entryTuples params = tuple :: tuples ->
  buildUrlWithParams url params
  = url +:+ "?" +:+ UrlEncoded.serialize (tuple :: tuples).
Proof.
  intros Htuples. rewrite buildUrlWithParams_some_tuple.
  - unfold queryStringOf, URLSearchParams.toString.
    rewrite searchParamsOf_tuples, Htuples. reflexivity.
  - rewrite searchParamsOf_tuples, Htuples. discriminate.
Qed.

(** The tuples of the mapping that [getReport] builds. *)
Lemma getReport_tuples (m p : string) (ids : list number) :
  flat_map entryTuples
    [("type", PString "workspace_activity"); ("metric", PString m);
     ("time_period", PString p);
     ("connector_ids",
      if (0 <? length ids)%nat then PArray (map ItemNumber ids)
      else PUndefined)]
  = ("type", "workspace_activity") :: ("metric", m) :: ("time_period", p)
    :: map (fun id => ("connector_ids[]", Number_toString id)) ids.
Proof.
  cbn [flat_map entryTuples String_of_param app].
  destruct ids as [|id ids]; [reflexivity|].
  cbn [length Nat.ltb Nat.leb entryTuples app].
  rewrite app_nil_r, map_map. reflexivity.
Qed.

Lemma String_app_literal (s1 s2 s3 : string) :
  s1 +:+ s2 +:+ s3 = (s1 +:+ s2) +:+ s3.
Proof. symmetry. apply String_app_assoc. Qed.

Lemma getReport_url (m p : string) (ids : list number) :
  buildUrlWithParams "/reports"
    [("type", PString "workspace_activity"); ("metric", PString m);
     ("time_period", PString p);
     ("connector_ids",
      if (0 <? length ids)%nat then PArray (map ItemNumber ids)
      else PUndefined)]
  = ("/reports" +:+ "?") +:+
    UrlEncoded.serialize
      (("type", "workspace_activity") :: ("metric", m) :: ("time_period", p)
       :: map (fun id => ("connector_ids[]", Number_toString id)) ids).
Proof.
  rewrite <- String_app_literal.
  exact (buildUrlWithParams_tuples _ _ _ _ (getReport_tuples m p ids)).
Qed.

(** X16. For every options of [getReport], or none, the request is a [get]
    of [/reports?] followed by the serialised tuples [type], [metric] and
    [time_period] (defaults [all] and [one_week]) and then one tuple
    [connector_ids[]] per id, in the order of the list; parsing the query
    gives these tuples back. *)
Theorem getReport_query_tuples reportOptions w :
  let given := default noReportOptions reportOptions in
  let tuples :=
    [("type", "workspace_activity");
     ("metric", ReportMetric_name (default all (metric given)));
     ("time_period", ReportTimePeriod_name (default one_week (timePeriod given)))]
    ++ map (fun id => ("connector_ids[]", Number_toString id))
         (default [] (connectorIds given)) in
  map (fun request => (cfg_method request, cfg_url request))
    (issued (getReport transport loadEnv reportOptions) w)
  = [(Some "get", Some ("/reports?" +:+ UrlEncoded.serialize tuples))]
  /\ URLSearchParams.of_string (UrlEncoded.serialize tuples) = tuples.
Proof.
  intros given tuples. split; [|apply of_string_serialize].
  unfold getReport. rewrite apiFetch_verb_url.
  cbn [method url]. rewrite getReport_url. reflexivity.
Qed.

(** The two tuples of a page, as text. *)
Lemma page_segments z1 z2 :
  Z.abs z1 < 2 ^ 53 -> Z.abs z2 < 2 ^ 53 ->
  UrlEncoded.serialize
    [("page", Number_toString (Number_of_Z z1));
     ("per_page", Number_toString (Number_of_Z z2))]
  = "page=" +:+ decimal z1 +:+ "&per_page=" +:+ decimal z2.
Proof.
  intros H1 H2. unfold UrlEncoded.serialize, UrlEncoded.serialize_pair.
  cbn [map fst snd String.concat].
  rewrite !encode_Number_of_Z by assumption.
  change (UrlEncoded.encode "page") with "page".
  change (UrlEncoded.encode "per_page") with "per_page".
  rewrite !String_app_assoc. reflexivity.
Qed.

Lemma pages_url path z1 z2 :
  Z.abs z1 < 2 ^ 53 -> Z.abs z2 < 2 ^ 53 ->
  buildUrlWithParams path
    [("page", PNumber (Number_of_Z z1)); ("per_page", PNumber (Number_of_Z z2))]
  = path +:+ "?" +:+ "page=" +:+ decimal z1 +:+ "&per_page=" +:+ decimal z2.
Proof.
  intros H1 H2.
  rewrite (buildUrlWithParams_tuples path
             [("page", PNumber (Number_of_Z z1));
              ("per_page", PNumber (Number_of_Z z2))]
             ("page", Number_toString (Number_of_Z z1))
             [("per_page", Number_toString (Number_of_Z z2))] eq_refl).
  rewrite page_segments by assumption. reflexivity.
Qed.

(** X17. [fetchSyncs] and [getSyncRunsBySyncId] ask for the page and the
    page size as decimal numerals, [page] before [per_page], after [/syncs]
    and after [/syncs/{id}/sync_runs]; without arguments they ask for page
    1 of size 10. *)
Theorem sync_pages page perPage syncId w :
  Z.abs page < 2 ^ 53 -> Z.abs perPage < 2 ^ 53 ->
  let query z1 z2 := "page=" +:+ decimal z1 +:+ "&per_page=" +:+ decimal z2 in
  let sent (call : Promise number (JsValue number)) :=
    map (fun request => (cfg_method request, cfg_url request)) (issued call w) in
  sent (fetchSyncs transport loadEnv (Some (Number_of_Z page))
          (Some (Number_of_Z perPage)))
  = [(Some "get", Some ("/syncs" +:+ "?" +:+ query page perPage))]
  /\ sent (fetchSyncs transport loadEnv None None)
     = [(Some "get", Some "/syncs?page=1&per_page=10")]
  /\ sent (getSyncRunsBySyncId transport loadEnv syncId
             (Some (Number_of_Z page)) (Some (Number_of_Z perPage)))
     = [(Some "get",
         Some (("/syncs/" +:+ syncId +:+ "/sync_runs") +:+ "?" +:+
               query page perPage))]
  /\ sent (getSyncRunsBySyncId transport loadEnv syncId None None)
     = [(Some "get",
         Some (("/syncs/" +:+ syncId +:+ "/sync_runs") +:+
               "?page=1&per_page=10"))].
Proof.
  intros Hpage HperPage query sent.
  unfold sent, fetchSyncs, getSyncRunsBySyncId.
  rewrite !apiFetch_verb_url. cbn [method url default from_option id].
  rewrite !pages_url by (assumption || (simpl; lia)).
  repeat split.
Qed.

(** X18. [getUserConnectors] asks for the connectors of one kind: the
    query is [type], then [page], then [per_page], with page 1 of size 10
    when the caller names none. *)
Theorem connector_pages connectorType page perPage w :
  Z.abs page < 2 ^ 53 -> Z.abs perPage < 2 ^ 53 ->
  let sent (call : Promise number (JsValue number)) :=
    map (fun request => (cfg_method request, cfg_url request)) (issued call w) in
  sent (getUserConnectors transport loadEnv connectorType
          (Some (Number_of_Z page)) (Some (Number_of_Z perPage)))
  = [(Some "get",
      Some ("/connectors" +:+ "?" +:+
            ("type=" +:+ ConnectorType_name connectorType) +:+ "&" +:+
            "page=" +:+ decimal page +:+ "&per_page=" +:+ decimal perPage))]
  /\ sent (getUserConnectors transport loadEnv connectorType None None)
     = [(Some "get",
         Some ("/connectors" +:+ "?" +:+
               ("type=" +:+ ConnectorType_name connectorType) +:+
               "&page=1&per_page=10"))].
Proof.
  intros Hpage HperPage sent.
  assert (Hurl : forall z1 z2,
             Z.abs z1 < 2 ^ 53 -> Z.abs z2 < 2 ^ 53 ->
             buildUrlWithParams "/connectors"
               [("type", PString (ConnectorType_name connectorType));
                ("page", PNumber (Number_of_Z z1));
                ("per_page", PNumber (Number_of_Z z2))]
             = "/connectors" +:+ "?" +:+
               ("type=" +:+ ConnectorType_name connectorType) +:+ "&" +:+
               "page=" +:+ decimal z1 +:+ "&per_page=" +:+ decimal z2).
  { intros z1 z2 H1 H2.
    rewrite (buildUrlWithParams_tuples "/connectors"
               [("type", PString (ConnectorType_name connectorType));
                ("page", PNumber (Number_of_Z z1));
                ("per_page", PNumber (Number_of_Z z2))]
               ("type", ConnectorType_name connectorType)
               [("page", Number_toString (Number_of_Z z1));
                ("per_page", Number_toString (Number_of_Z z2))] eq_refl).
    rewrite UrlEncodedFacts.serialize_cons, page_segments by assumption.
    destruct connectorType; reflexivity. }
  unfold sent, getUserConnectors.
  rewrite !apiFetch_verb_url. cbn [method url default from_option id].
  rewrite !Hurl by (assumption || (simpl; lia)).
  repeat split.
Qed.


(** X20. [deleteConnector] issues the request of [getConnectorInfo] for the
    same id with the verb [delete] in place of [get]: same url, same
    headers, no body for either; [getAllConnectors] is a [get] of
    [/connectors] without a query. *)
Theorem connector_requests id w :
  exists info,
    issued (getConnectorInfo transport loadEnv id) w = [info]
    /\ issued (deleteConnector transport loadEnv id) w
       = [withMethod "delete" info]
    /\ cfg_method info = Some "get"
    /\ cfg_url info = Some ("/connectors/" +:+ id)
    /\ cfg_data info = JUndefined
    /\ map (fun request =>
              (cfg_method request, cfg_url request, cfg_data request))
         (issued (getAllConnectors transport loadEnv) w)
       = [(Some "get", Some "/connectors", JUndefined)].
Proof.
  eexists. split; [apply apiFetch_issued|].
  unfold deleteConnector, getAllConnectors. rewrite !apiFetch_issued.
  repeat split.
Qed.

(** X21. The ids of a path are put in as they are, without escaping, so an
    id that holds the rest of a longer path asks for that path:
    [getSyncById] of [a/sync_runs/b] is the call [getSyncRunById] of [a] and
    [b], and [getConnectorInfo] of [c/discover?refresh=false] is the call
    [getCatalog] of [c], which asks for no refresh unless told to. *)
Theorem path_ids_are_verbatim a b c refresh w :
  getSyncById transport loadEnv (a +:+ "/sync_runs/" +:+ b)
  = getSyncRunById transport loadEnv a b
  /\ getConnectorInfo transport loadEnv (c +:+ "/discover?refresh=false")
     = getCatalog transport loadEnv c None
  /\ getCatalog transport loadEnv c None
     = getCatalog transport loadEnv c (Some false)
  /\ map (fun request => (cfg_method request, cfg_url request))
       (issued (getCatalog transport loadEnv c (Some refresh)) w)
     = [(Some "get",
         Some ("/connectors/" +:+ c +:+ "/discover?refresh=" +:+
               (if refresh then "true" else "false")))].
Proof.
  repeat split. unfold getCatalog. rewrite apiFetch_verb_url. reflexivity.
Qed.

End EndpointExtras.

(** ** The further properties at concrete inputs *)

(** X7, at a [post] of a query. *)
Lemma apiFetch_sends_payload_witness :
  exists request,
    issued
      (apiFetch sampleTransport sampleEnv
         {| url := "/connectors/12/query_source"; method := "post";
            data := JObject [("query", JString "select 1")];
            options := None |}) sampleWorld
    = [request]
    /\ cfg_method request = Some "post"
    /\ cfg_url request = Some "/connectors/12/query_source"
    /\ cfg_data request = JObject [("query", JString "select 1")].
Proof.
  apply (apiFetch_sends_payload sampleTransport sampleEnv
           {| url := "/connectors/12/query_source"; method := "post";
              data := JObject [("query", JString "select 1")];
              options := None |} sampleWorld).
  simpl. tauto.
Defined.

(** X8, at a [delete] called with a payload. *)
Lemma apiFetch_drops_payload_witness :
  apiFetch sampleTransport sampleEnv
    {| url := "/connectors/12"; method := "delete";
       data := JString "ignored"; options := None |} sampleWorld
  = apiFetch sampleTransport sampleEnv
      {| url := "/connectors/12"; method := "delete"; data := JUndefined;
         options := None |} sampleWorld.
Proof.
  refine (proj1 (apiFetch_drops_payload sampleTransport sampleEnv
                   {| url := "/connectors/12"; method := "delete";
                      data := JString "ignored"; options := None |}
                   JUndefined sampleWorld _)).
  simpl. tauto.
Defined.

(** X9, at a header of the caller's own. *)
Lemma request_handler_touches_fixed_headers_only_witness :
  cfg_headers
    (interceptors_request (createApiClient (number := Z) sampleEnv) sampleEnv
       (withHeaders emptyConfig {[ "X-Trace" := "abc" ]}))
  !! "X-Trace"
  = Some "abc".
Proof.
  rewrite (proj1 (request_handler_touches_fixed_headers_only
                    (number := Z) sampleEnv sampleEnv
                    (withHeaders emptyConfig {[ "X-Trace" := "abc" ]}))
             "X-Trace").
  - reflexivity.
  - simpl. intros [Hn|[Hn|[Hn|[Hn|[]]]]]; discriminate Hn.
Defined.

(** X10, at a change of host, workspace and token. *)
Lemma baseURL_is_fixed_at_load_witness :
  exists request,
    issued
      (afterwards
         (setEnv
            {| VITE_API_HOST := "https://other.example.test";
               VITE_WORKSPACE_ID := "8"; VITE_API_TOKEN := "fresh" |})
         (apiFetch sampleTransport sampleEnv
            {| url := "/syncs"; method := "get"; data := JUndefined;
               options := None |})) sampleWorld
    = [request]
    /\ cfg_baseURL request = Some "https://api.example.test/api/v1"
    /\ carriesHeadersOf
         {| VITE_API_HOST := "https://other.example.test";
            VITE_WORKSPACE_ID := "8"; VITE_API_TOKEN := "fresh" |} request.
Proof.
  apply (baseURL_is_fixed_at_load sampleTransport sampleEnv
           {| url := "/syncs"; method := "get"; data := JUndefined;
              options := None |}).
  intros o Ho. discriminate Ho.
Defined.

(** X11, at a transport that reaches no server. *)
Lemma executeModel_lookup_failure_witness :
  fst (executeModel offlineTransport sampleEnv "m1" sampleWorld)
  = Rejected
      {| err_name := "AxiosError"; err_message := "Network Error";
         err_response := None |}
  /\ map cfg_url (issued (executeModel offlineTransport sampleEnv "m1") sampleWorld)
     = [Some "/models/m1"].
Proof.
  destruct (executeModel_lookup_failure offlineTransport sampleEnv "m1"
              sampleWorld _ eq_refl eq_refl) as [Hresult Hissued].
  split; [exact Hresult|]. rewrite Hissued. reflexivity.
Defined.


(** X14, at the bodies [null], [{data: {id: "m1"}}] and
    [{data: {attributes: {query: "select 1"}}}]. *)
Lemma executeModel_type_errors_witness :
  (exists message,
      fst (executeModel (answering JNull) sampleEnv "m1" sampleWorld)
      = Rejected (TypeError message))
  /\ (exists message,
         fst (executeModel
                (answering (JObject [("data", JObject [("id", JString "m1")])]))
                sampleEnv "m1" sampleWorld)
         = Rejected (TypeError message))
  /\ (exists message,
         fst (executeModel
                (answering
                   (JObject
                      [("data",
                        JObject
                          [("attributes",
                            JObject [("query", JString "select 1")])])]))
                sampleEnv "m1" sampleWorld)
         = Rejected (TypeError message)).
Proof.
  split; [|split].
  - exact (proj1 (proj1 (executeModel_type_errors (answering JNull) sampleEnv
                           "m1" sampleWorld JNull eq_refl) eq_refl)).
  - exact (proj1 (proj1 (proj2 (executeModel_type_errors
                                  (answering (JObject [("data", JObject [("id", JString "m1")])]))
                                  sampleEnv "m1" sampleWorld _ eq_refl))
                    _ _ eq_refl eq_refl eq_refl eq_refl)).
  - exact (proj1 (proj2 (proj2 (executeModel_type_errors
                                  (answering
                                     (JObject
                                        [("data",
                                          JObject
                                            [("attributes",
                                              JObject [("query", JString "select 1")])])]))
                                  sampleEnv "m1" sampleWorld _ eq_refl))
                    _ _ _ eq_refl eq_refl eq_refl eq_refl eq_refl)).
Defined.

(** X15, at a model that names its connector and no query. *)
Lemma executeModel_missing_query_witness :
  exists queryRequest,
    issued (executeModel (answering envelopeWithoutQuery) sampleEnv "m1")
      sampleWorld
    = [requestOf sampleEnv
         {| method := "get"; url := "/models/m1"; data := JUndefined;
            options := None |} sampleEnv;
       queryRequest]
    /\ cfg_method queryRequest = Some "post"
    /\ cfg_url queryRequest = Some "/connectors/12/query_source"
    /\ cfg_data queryRequest = JObject [("query", JUndefined)].
Proof.
  exact (executeModel_missing_query (answering envelopeWithoutQuery) sampleEnv
           "m1" sampleWorld
           [("data",
             JObject
               [("attributes",
                 JObject [("connector", JObject [("id", JString "12")])])])]
           [("attributes",
             JObject [("connector", JObject [("id", JString "12")])])]
           [("connector", JObject [("id", JString "12")])]
           [("id", JString "12")] "12"
           eq_refl eq_refl eq_refl eq_refl eq_refl eq_refl).
Defined.

(** X17, at page 2 of size 5. *)
Lemma sync_pages_witness :
  map (fun request => (cfg_method request, cfg_url request))
    (issued (fetchSyncs sampleTransport sampleEnv (Some 2) (Some 5)) sampleWorld)
  = [(Some "get", Some "/syncs?page=2&per_page=5")].
Proof.
  refine (proj1 (sync_pages sampleTransport sampleEnv 2 5 "s1" sampleWorld _ _));
    simpl; lia.
Defined.

(** X18, at page 3 of size 20 of the sources. *)
Lemma connector_pages_witness :
  map (fun request => (cfg_method request, cfg_url request))
    (issued
       (getUserConnectors sampleTransport sampleEnv source (Some 3) (Some 20))
       sampleWorld)
  = [(Some "get", Some "/connectors?type=source&page=3&per_page=20")].
Proof.
  refine (proj1 (connector_pages sampleTransport sampleEnv source 3 20
                   sampleWorld _ _));
    simpl; lia.
Defined.

